(** * Audit-then-generate pipeline for product copy

    A shallow embedding of the auditor ([checker_mcp.py]), the content
    synthesizer ([generator_mcp.py]) and the coordinator ([mcp_server.py]),
    followed by the properties of the pipeline.

    - Python [str] values are sequences of Unicode code points ([PyStr]).
    - Python [dict]s with a fixed set of keys are records; a key that a
      product may lack is an [option] field, read with [get] (the
      [dict.get(key, default)] of the source) or with [item] (the
      subscript [d[key]], which raises [KeyError]). The values of a
      product are strings.
    - Exceptions are values of [exn], carried by the [result] monad.
    - [generate_blog_content], the LLM stub, the mock catalogue and the
      serving layer take no part in the properties and are not embedded. *)

From Stdlib Require Import List String Ascii Bool ZArith NArith QArith Lia
  DecimalString.
Import ListNotations.

(* ================================================================== *)
(** ** Python strings *)

Module PyStr.

(** A character is a code point; a string is the list of its code points,
    so that [len] counts what Python's [len] counts. *)
Definition char := N.
Definition str := list char.

(** A literal of the source whose characters are all ASCII. *)
Definition lit (s : string) : str := map N_of_ascii (list_ascii_of_string s).

(** [len(s)], a Python int. *)
Definition len (s : str) : Z := Z.of_nat (List.length s).

(** [a == b] on strings. *)
Fixpoint eqb (a b : str) : bool :=
  match a, b with
  | [], [] => true
  | x :: a', y :: b' => N.eqb x y && eqb a' b'
  | _, _ => false
  end.

(** Truth value of a string: the empty string is falsy. *)
Definition truthy (s : str) : bool :=
  match s with [] => false | _ :: _ => true end.

(** [s.startswith(p)]. *)
Fixpoint startswith (s p : str) : bool :=
  match p, s with
  | [], _ => true
  | x :: p', y :: s' => N.eqb x y && startswith s' p'
  | _ :: _, [] => false
  end.

(** [needle in hay] on strings: [needle] occurs as a contiguous run. *)
Fixpoint contains (needle hay : str) : bool :=
  startswith hay needle ||
  match hay with
  | [] => false
  | _ :: hay' => contains needle hay'
  end.

(** [x in xs] where [xs] is a list of strings. *)
Definition mem (x : str) (xs : list str) : bool := existsb (eqb x) xs.

(** [str.lower()], character by character. It is exact on U+0000..U+00FF
    (A-Z and the Latin-1 capitals U+00C0..U+00DE, the sign U+00D7 apart,
    move up by 32); code points above U+00FF are left as they are. *)
Definition lower_char (c : char) : char :=
  if ((65 <=? c) && (c <=? 90)
      || (192 <=? c) && (c <=? 222) && negb (c =? 215))%N
  then (c + 32)%N else c.

Definition lower (s : str) : str := map lower_char s.

(** The characters [str.strip()] removes: those for which [isspace] holds. *)
Definition isspace (c : char) : bool :=
  ((9 <=? c) && (c <=? 13) || (28 <=? c) && (c <=? 32)
   || (c =? 133) || (c =? 160) || (c =? 5760)
   || (8192 <=? c) && (c <=? 8202)
   || (c =? 8232) || (c =? 8233) || (c =? 8239) || (c =? 8287)
   || (c =? 12288))%N.

Fixpoint lstrip (s : str) : str :=
  match s with
  | [] => []
  | c :: s' => if isspace c then lstrip s' else s
  end.

Definition strip (s : str) : str := rev (lstrip (rev (lstrip s))).

(** [sep.join(parts)]. *)
Fixpoint join (sep : str) (parts : list str) : str :=
  match parts with
  | [] => []
  | [p] => p
  | p :: rest => p ++ sep ++ join sep rest
  end.

(** [str(n)] / the [{n}] of an f-string, for an int. *)
Definition of_int (n : Z) : str := lit (NilZero.string_of_int (Z.to_int n)).

(** [s[:n]]. *)
Definition slice_to (n : nat) (s : str) : str := firstn n s.

End PyStr.

Import PyStr.

(* ================================================================== *)
(** ** Exceptions *)

Inductive exn : Type :=
| KeyError (key : str)
| ValueError.

Inductive result (A : Type) : Type :=
| Ok (a : A)
| Raise (e : exn).

Arguments Ok {A} a.
Arguments Raise {A} e.

Definition bind {A B : Type} (m : result A) (k : A -> result B) : result B :=
  match m with
  | Ok a => k a
  | Raise e => Raise e
  end.

Notation "x <- m ;; k" := (bind m (fun x => k))
  (at level 61, m at next level, right associativity).

(** [for x in xs: out.append(f(x))]: the first exception ends the loop. *)
Fixpoint mapM {A B : Type} (f : A -> result B) (xs : list A) : result (list B) :=
  match xs with
  | [] => Ok []
  | x :: xs' => y <- f x ;; ys <- mapM f xs' ;; Ok (y :: ys)
  end.

(** [[x for x in xs if f(x)]] where the test may raise. *)
Fixpoint filterM {A : Type} (f : A -> result bool) (xs : list A) : result (list A) :=
  match xs with
  | [] => Ok []
  | x :: xs' =>
      b <- f x ;; ys <- filterM f xs' ;; Ok (if b then x :: ys else ys)
  end.

(** [xs.index(x)]: the position of the first element equal to [x];
    [ValueError] when there is none. *)
Fixpoint index (x : str) (xs : list str) : result Z :=
  match xs with
  | [] => Raise ValueError
  | y :: xs' => if eqb y x then Ok 0%Z else i <- index x xs' ;; Ok (1 + i)%Z
  end.

(** [d.get(key, default)] and [d[key]] on a key that may be absent. *)
Definition get (field : option str) (default : str) : str :=
  match field with
  | Some v => v
  | None => default
  end.

Definition item (key : string) (field : option str) : result str :=
  match field with
  | Some v => Ok v
  | None => Raise (KeyError (lit key))
  end.

(* ================================================================== *)
(** ** Data model *)

(** The product dictionary: the keys the pipeline reads. [tags] is never
    read, and [price] is read into a local that is never used. *)
Module Product.
Record t : Type := mk {
  id : option str;
  title : option str;
  description : option str;
  vendor : option str;
  product_type : option str;
  seo_title : option str;
  seo_description : option str
}.
End Product.

Module Issue.
Record t : Type := mk {
  type : str;
  severity : str;
  message : str
}.
End Issue.

Module AuditResult.
Record t : Type := mk {
  product_id : str;
  product_title : str;
  issues_found : Z;
  issues : list Issue.t;
  severity : str
}.
End AuditResult.

Module Optimization.
Record t : Type := mk {
  product_id : str;
  original_description : str;
  optimized_description : option str;
  optimized_seo_title : option str;
  optimized_seo_description : option str;
  improvements_made : list str
}.
End Optimization.

Module ProcessingResult.
Record t : Type := mk {
  product_id : str;
  product_title : str;
  audit : AuditResult.t;
  optimization : option Optimization.t;
  action_required : bool;
  priority : str
}.
End ProcessingResult.

(** The update payload; [updates] is the dictionary built by successive
    assignments, kept as the list of its (key, value) pairs in insertion
    order. *)
Module Payload.
Record t : Type := mk {
  product_id : str;
  updates : list (str * str)
}.
End Payload.

(** The statistics dictionary; [priority_breakdown] is the dictionary of the
    five counters, kept as the list of its (key, value) pairs in insertion
    order. *)
Module Statistics.
Record t : Type := mk {
  total_products_processed : Z;
  products_with_issues : Z;
  products_optimized : Z;
  total_issues_found : Z;
  priority_breakdown : list (str * Z);
  completion_rate : str
}.
End Statistics.

(* ================================================================== *)
(** ** checker_mcp.py *)

Module CheckerMCP.

Definition MIN_DESCRIPTION_LENGTH : Z := 100.
Definition MIN_SEO_TITLE_LENGTH : Z := 30.
Definition MIN_SEO_DESCRIPTION_LENGTH : Z := 80.
Definition MAX_SEO_DESCRIPTION_LENGTH : Z := 160.

Definition PREMIUM_KEYWORDS : list str :=
  map lit ["premium"; "luxury"; "exclusive"; "professional"; "exceptional"]%string.
Definition CTA_KEYWORDS : list str :=
  map lit ["discover"; "experience"; "transform"; "elevate"; "shop now";
           "order"; "buy"]%string.
Definition BENEFIT_KEYWORDS : list str :=
  map lit ["benefits"; "results"; "improves"; "enhances"; "reduces";
           "promotes"]%string.

Definition _check_description (description : str) : list Issue.t :=
  let issues := [] in
  let issues :=
    if (len description <? MIN_DESCRIPTION_LENGTH)%Z
    then issues ++ [Issue.mk (lit "description_length") (lit "high")
                      (lit "Description too short (" ++ of_int (len description)
                       ++ lit " chars). Minimum: "
                       ++ of_int MIN_DESCRIPTION_LENGTH)]
    else issues in
  let issues :=
    if negb (truthy description) || eqb (strip description) (lit "")
    then issues ++ [Issue.mk (lit "missing_description") (lit "critical")
                      (lit "Product description is missing")]
    else issues in
  let vague_terms := map lit ["good"; "nice"; "stuff"; "things"; "really"]%string in
  let found_vague :=
    filter (fun term => contains (lower term) (lower description)) vague_terms in
  let issues :=
    match found_vague with
    | _ :: _ =>
        issues ++ [Issue.mk (lit "vague_language") (lit "medium")
                     (lit "Contains vague terms: " ++ join (lit ", ") found_vague)]
    | [] => issues
    end in
  issues.

Definition _check_seo_fields (product : Product.t) : list Issue.t :=
  let issues := [] in
  let seo_title := get (Product.seo_title product) (lit "") in
  let seo_description := get (Product.seo_description product) (lit "") in
  let issues :=
    if negb (truthy seo_title) || (len seo_title <? MIN_SEO_TITLE_LENGTH)%Z
    then issues ++ [Issue.mk (lit "seo_title") (lit "high")
                      (lit "SEO title missing or too short")]
    else issues in
  let issues :=
    if negb (truthy seo_description)
    then issues ++ [Issue.mk (lit "seo_description_missing") (lit "high")
                      (lit "SEO description is missing")]
    else if (len seo_description <? MIN_SEO_DESCRIPTION_LENGTH)%Z
    then issues ++ [Issue.mk (lit "seo_description_short") (lit "medium")
                      (lit "SEO description too short ("
                       ++ of_int (len seo_description) ++ lit " chars)")]
    else if (len seo_description >? MAX_SEO_DESCRIPTION_LENGTH)%Z
    then issues ++ [Issue.mk (lit "seo_description_long") (lit "low")
                      (lit "SEO description too long ("
                       ++ of_int (len seo_description) ++ lit " chars). Max: "
                       ++ of_int MAX_SEO_DESCRIPTION_LENGTH)]
    else issues in
  issues.

Definition _check_tone (description : str) : list Issue.t :=
  let issues := [] in
  let description_lower := lower description in
  let has_premium_tone :=
    existsb (fun keyword => contains keyword description_lower) PREMIUM_KEYWORDS in
  let issues :=
    if negb has_premium_tone
    then issues ++ [Issue.mk (lit "tone_not_premium") (lit "medium")
                      (lit "Missing premium/luxury brand tone")]
    else issues in
  issues.

Definition _check_conversion_elements (description : str) : list Issue.t :=
  let issues := [] in
  let description_lower := lower description in
  let has_cta :=
    existsb (fun keyword => contains keyword description_lower) CTA_KEYWORDS in
  let issues :=
    if negb has_cta
    then issues ++ [Issue.mk (lit "missing_cta") (lit "medium")
                      (lit "Missing clear call-to-action")]
    else issues in
  let has_benefits :=
    existsb (fun keyword => contains keyword description_lower) BENEFIT_KEYWORDS in
  let issues :=
    if negb has_benefits
    then issues ++ [Issue.mk (lit "missing_benefits") (lit "low")
                      (lit "Could emphasize customer benefits more clearly")]
    else issues in
  issues.

Definition _calculate_severity (issues : list Issue.t) : str :=
  match issues with
  | [] => lit "none"
  | _ :: _ =>
      let severities := map Issue.severity issues in
      if mem (lit "critical") severities then lit "critical"
      else if mem (lit "high") severities then lit "high"
      else if mem (lit "medium") severities then lit "medium"
      else lit "low"
  end.

Definition audit_product (product : Product.t) : result AuditResult.t :=
  let issues := [] in
  let description := get (Product.description product) (lit "") in
  let issues := issues ++ _check_description description in
  let issues := issues ++ _check_seo_fields product in
  let issues := issues ++ _check_tone description in
  let issues := issues ++ _check_conversion_elements description in
  product_id <- item "id" (Product.id product) ;;
  product_title <- item "title" (Product.title product) ;;
  Ok (AuditResult.mk product_id product_title (Z.of_nat (List.length issues)) issues
        (_calculate_severity issues)).

End CheckerMCP.

(* ================================================================== *)
(** ** generator_mcp.py *)

Module GeneratorMCP.

(** The two characters of the templates that are not written as ASCII
    text: the line feed of an escaped newline and the bullet U+2022. *)
Definition nl : str := [10%N].
Definition bullet : str := [8226%N].

Definition _needs_description_rewrite (issue_types : list str) : bool :=
  let rewrite_triggers :=
    map lit ["description_length"; "missing_description"; "vague_language";
             "tone_not_premium"; "missing_cta"; "missing_benefits"]%string in
  existsb (fun trigger => mem trigger issue_types) rewrite_triggers.

Definition _generate_description (product : Product.t) : str :=
  let title := get (Product.title product) (lit "Product") in
  let product_type := get (Product.product_type product) (lit "item") in
  let description_parts := [] in
  let description_parts :=
    description_parts ++
    [lit "Discover the exceptional quality of our " ++ title ++ lit ", "
     ++ lit "a premium " ++ lower product_type
     ++ lit " crafted for those who appreciate excellence."] in
  let description_parts :=
    if contains (lit "cream") (lower title)
       || contains (lit "skincare") (lower product_type)
    then description_parts ++
      [nl ++ nl
       ++ lit "Experience transformative results with our carefully formulated blend of "
       ++ lit "natural ingredients. This luxurious formula deeply nourishes your skin, "
       ++ lit "promoting a radiant, healthy complexion while reducing the visible signs of aging."]
    else if contains (lit "serum") (lower title)
    then description_parts ++
      [nl ++ nl
       ++ lit "This professional-grade serum delivers powerful anti-aging benefits through "
       ++ lit "a concentrated blend of scientifically-proven ingredients. Enhances skin elasticity, "
       ++ lit "reduces fine lines, and restores your skin's natural luminosity."]
    else description_parts ++
      [nl ++ nl
       ++ lit "Meticulously designed to deliver exceptional results, this product combines "
       ++ lit "premium ingredients with expert craftsmanship to exceed your expectations."] in
  let description_parts :=
    description_parts ++
    [nl ++ nl ++ lit "**Key Benefits:**" ++ nl
     ++ bullet ++ lit " Premium, professionally-formulated ingredients" ++ nl
     ++ bullet ++ lit " Visible results you can see and feel" ++ nl
     ++ bullet ++ lit " Suitable for all skin types" ++ nl
     ++ bullet ++ lit " Cruelty-free and ethically sourced"] in
  let description_parts :=
    description_parts ++
    [nl ++ nl ++ lit "Trusted by discerning customers worldwide, our " ++ title
     ++ lit " represents " ++ lit "the perfect balance of luxury and effectiveness."] in
  let description_parts :=
    description_parts ++
    [nl ++ nl
     ++ lit "Elevate your skincare routine today. Experience the difference that premium quality makes."] in
  join (lit "") description_parts.

Definition _generate_seo_title (product : Product.t) : str :=
  let title := get (Product.title product) (lit "") in
  let vendor := get (Product.vendor product) (lit "") in
  let benefit :=
    if contains (lit "cream") (lower title) then lit "Nourishing & Anti-Aging"
    else if contains (lit "serum") (lower title)
    then lit "Professional Anti-Aging Treatment"
    else lit "Premium Quality" in
  let seo_title := title ++ lit " | " ++ benefit in
  let seo_title :=
    if truthy vendor then seo_title ++ lit " | " ++ vendor else seo_title in
  let seo_title :=
    if (len seo_title >? 60)%Z then title ++ lit " | " ++ benefit else seo_title in
  seo_title.

Definition _generate_seo_description (product : Product.t) : str :=
  let title := get (Product.title product) (lit "") in
  let seo_desc :=
    if contains (lit "cream") (lower title)
    then lit "Experience premium " ++ lower title ++ lit " with natural ingredients. "
         ++ lit "Nourishes, protects, and rejuvenates your skin. Shop our luxury skincare collection."
    else if contains (lit "serum") (lower title)
    then lit "Professional-grade " ++ lower title
         ++ lit " delivers powerful anti-aging results. "
         ++ lit "Reduce fine lines and restore radiance. Premium quality guaranteed."
    else lit "Discover our premium " ++ lower title
         ++ lit " - exceptional quality and results. "
         ++ lit "Trusted by customers worldwide. Shop now for exclusive offers." in
  let seo_desc :=
    if (len seo_desc >? 160)%Z then slice_to 157 seo_desc ++ lit "..." else seo_desc in
  seo_desc.

(** The assignments [optimized[key] = value] and the
    [optimized["improvements_made"].append(note)] of the source. *)
Definition set_optimized_description (v : str) (o : Optimization.t) : Optimization.t :=
  Optimization.mk (Optimization.product_id o) (Optimization.original_description o)
    (Some v) (Optimization.optimized_seo_title o)
    (Optimization.optimized_seo_description o) (Optimization.improvements_made o).

Definition set_optimized_seo_title (v : str) (o : Optimization.t) : Optimization.t :=
  Optimization.mk (Optimization.product_id o) (Optimization.original_description o)
    (Optimization.optimized_description o) (Some v)
    (Optimization.optimized_seo_description o) (Optimization.improvements_made o).

Definition set_optimized_seo_description (v : str) (o : Optimization.t) : Optimization.t :=
  Optimization.mk (Optimization.product_id o) (Optimization.original_description o)
    (Optimization.optimized_description o) (Optimization.optimized_seo_title o)
    (Some v) (Optimization.improvements_made o).

Definition append_improvement (note : str) (o : Optimization.t) : Optimization.t :=
  Optimization.mk (Optimization.product_id o) (Optimization.original_description o)
    (Optimization.optimized_description o) (Optimization.optimized_seo_title o)
    (Optimization.optimized_seo_description o)
    (Optimization.improvements_made o ++ [note]).

Definition generate_optimized_content
  (product : Product.t) (issues : list Issue.t) : result Optimization.t :=
  let issue_types := map Issue.type issues in
  product_id <- item "id" (Product.id product) ;;
  let optimized :=
    Optimization.mk product_id (get (Product.description product) (lit ""))
      None None None [] in
  let optimized :=
    if _needs_description_rewrite issue_types
    then append_improvement (lit "Rewrote product description with premium tone")
           (set_optimized_description (_generate_description product) optimized)
    else optimized in
  let optimized :=
    if mem (lit "seo_title") issue_types
    then append_improvement (lit "Created SEO-optimized title")
           (set_optimized_seo_title (_generate_seo_title product) optimized)
    else optimized in
  let optimized :=
    if existsb (fun t => startswith t (lit "seo_description")) issue_types
    then append_improvement (lit "Created SEO meta description")
           (set_optimized_seo_description (_generate_seo_description product) optimized)
    else optimized in
  Ok optimized.

End GeneratorMCP.

(* ================================================================== *)
(** ** mcp_server.py *)

Module MCPServer.

Definition _determine_priority (audit_result : AuditResult.t) : str :=
  let severity := AuditResult.severity audit_result in
  let issue_count := AuditResult.issues_found audit_result in
  if eqb severity (lit "critical") then lit "critical"
  else if eqb severity (lit "high") || (issue_count >=? 5)%Z then lit "high"
  else if eqb severity (lit "medium") || (issue_count >=? 3)%Z then lit "medium"
  else if (issue_count >? 0)%Z then lit "low"
  else lit "none".

Definition process_single_product (product : Product.t) : result ProcessingResult.t :=
  audit_result <- CheckerMCP.audit_product product ;;
  product_id <- item "id" (Product.id product) ;;
  product_title <- item "title" (Product.title product) ;;
  let priority := _determine_priority audit_result in
  if (AuditResult.issues_found audit_result >? 0)%Z
  then
    optimization <- GeneratorMCP.generate_optimized_content product
                      (AuditResult.issues audit_result) ;;
    Ok (ProcessingResult.mk product_id product_title audit_result
          (Some optimization) true priority)
  else
    Ok (ProcessingResult.mk product_id product_title audit_result
          None false priority).

Definition process_products (products : list Product.t)
  : result (list ProcessingResult.t) :=
  mapM process_single_product products.

Definition priority_order : list str :=
  map lit ["none"; "low"; "medium"; "high"; "critical"]%string.

Definition process_batch_with_filters
  (products : list Product.t) (min_priority : str)
  : result (list ProcessingResult.t) :=
  min_priority_index <- index min_priority priority_order ;;
  all_results <- process_products products ;;
  filterM
    (fun result =>
       i <- index (ProcessingResult.priority result) priority_order ;;
       Ok (i >=? min_priority_index)%Z)
    all_results.

(** One step of the payload construction:
    [if optimization.get(field): payload["updates"][key] = optimization[field]].
    [None] and the empty string are falsy. *)
Definition put_if_truthy (key : string) (field : option str)
  (updates : list (str * str)) : list (str * str) :=
  match field with
  | Some v => if truthy v then updates ++ [(lit key, v)] else updates
  | None => updates
  end.

(** [export_for_shopify]; Python's [None] result is [None] here. An
    optimization dictionary always has its six keys, so it is truthy
    whenever it is present. *)
Definition export_for_shopify (result : ProcessingResult.t) : option Payload.t :=
  match ProcessingResult.optimization result with
  | None => None
  | Some optimization =>
      let updates := [] in
      let updates :=
        put_if_truthy "description"
          (Optimization.optimized_description optimization) updates in
      let updates :=
        put_if_truthy "seo_title"
          (Optimization.optimized_seo_title optimization) updates in
      let updates :=
        put_if_truthy "seo_description"
          (Optimization.optimized_seo_description optimization) updates in
      match updates with
      | _ :: _ => Some (Payload.mk (ProcessingResult.product_id result) updates)
      | [] => None
      end
  end.

(** [sum(xs)]: from 0, left to right. *)
Definition sum (xs : list Z) : Z := fold_left Z.add xs 0%Z.

(** [counts[key] += 1]: [KeyError] when the dictionary has no such key. *)
Fixpoint increment (key : str) (counts : list (str * Z)) : result (list (str * Z)) :=
  match counts with
  | [] => Raise (KeyError key)
  | (k, n) :: rest =>
      if eqb k key then Ok ((k, n + 1)%Z :: rest)
      else rest' <- increment key rest ;; Ok ((k, n) :: rest')
  end.

(** The loop [for result in results: priority_counts[priority] += 1]. *)
Fixpoint count_priorities (results : list ProcessingResult.t)
  (priority_counts : list (str * Z)) : result (list (str * Z)) :=
  match results with
  | [] => Ok priority_counts
  | result :: rest =>
      let priority := ProcessingResult.priority result in
      priority_counts <- increment priority priority_counts ;;
      count_priorities rest priority_counts
  end.

(** [a / b] on ints, for [b > 0] (the source divides under that guard). The
    only quotient taken is that of a positive int by itself, and it is
    multiplied by 100: both results (1.0 and 100.0) are exact in floating
    point, so the arithmetic is that of the rationals. *)
Definition true_div (a b : Z) : Q := a # Z.to_pos b.

(** Rounding to the nearest integer, ties to even. *)
Definition round_half_even (q : Q) : Z :=
  let n := Qnum q in
  let d := Z.pos (Qden q) in
  let fl := (n / d)%Z in
  let rem := (n mod d)%Z in
  if (2 * rem <? d)%Z then fl
  else if (2 * rem >? d)%Z then (fl + 1)%Z
  else if Z.even fl then fl else (fl + 1)%Z.

(** The format [{x:.1f}] of a value that is not negative: one digit after
    the point. *)
Definition format_1f (x : Q) : str :=
  let tenths := round_half_even (x * 10) in
  of_int (tenths / 10) ++ lit "." ++ of_int (tenths mod 10).

Definition get_statistics (results : list ProcessingResult.t)
  : result Statistics.t :=
  let total_products := Z.of_nat (List.length results) in
  let products_with_issues :=
    sum (map (fun _ => 1%Z)
           (filter (fun r => (AuditResult.issues_found (ProcessingResult.audit r) >? 0)%Z)
              results)) in
  let total_issues :=
    sum (map (fun r => AuditResult.issues_found (ProcessingResult.audit r)) results) in
  let priority_counts :=
    [(lit "critical", 0%Z); (lit "high", 0%Z); (lit "medium", 0%Z);
     (lit "low", 0%Z); (lit "none", 0%Z)] in
  priority_counts <- count_priorities results priority_counts ;;
  Ok (Statistics.mk total_products products_with_issues products_with_issues
        total_issues priority_counts
        (format_1f (if (total_products >? 0)%Z
                    then true_div total_products total_products * 100
                    else 0)
         ++ lit "%")).

End MCPServer.


(* ================================================================== *)
(** ** Vocabulary of the properties *)

(** Some issue of the list carries the given severity. *)
Definition any_severity (level : string) (issues : list Issue.t) : Prop :=
  exists i, In i issues /\ Issue.severity i = lit level.

(** The ordinal critical > high > medium > low > none; any other string
    ranks with "none". *)
Definition severity_rank (s : str) : nat :=
  if eqb s (lit "critical") then 4
  else if eqb s (lit "high") then 3
  else if eqb s (lit "medium") then 2
  else if eqb s (lit "low") then 1
  else 0.

(** The four severities an issue may carry. *)
Definition issue_severities : list str :=
  map lit ["critical"; "high"; "medium"; "low"]%string.

(** What an issue says apart from its message. *)
Definition kind (i : Issue.t) : str * str := (Issue.type i, Issue.severity i).

(** The three issue types of the SEO-description tiers. *)
Definition seo_description_types : list str :=
  map lit ["seo_description_missing"; "seo_description_short";
           "seo_description_long"]%string.

(** The SEO description the check reads, and the issues it emits about it
    (the same function also emits the [seo_title] issue). *)
Definition seo_description_of (p : Product.t) : str :=
  get (Product.seo_description p) (lit "").

Definition seo_description_issues (p : Product.t) : list Issue.t :=
  filter (fun i => mem (Issue.type i) seo_description_types)
    (CheckerMCP._check_seo_fields p).

(** The two issues of an empty description, with their messages. *)
Definition description_length_issue (n : Z) : Issue.t :=
  Issue.mk (lit "description_length") (lit "high")
    (lit "Description too short (" ++ of_int n ++ lit " chars). Minimum: 100").

Definition missing_description_issue : Issue.t :=
  Issue.mk (lit "missing_description") (lit "critical")
    (lit "Product description is missing").

(** The title and the vendor as the generator reads them: an absent key
    reads as the empty string. *)
Definition title_of (p : Product.t) : str := get (Product.title p) (lit "").
Definition vendor_of (p : Product.t) : str := get (Product.vendor p) (lit "").

(** The title contains the word, whatever the case of its letters. *)
Definition mentions (word : string) (title : str) : bool :=
  contains (lit word) (lower title).

(** The ladder none < low < medium < high < critical; any other string
    ranks with "none" (the coordinator produces none, see
    [process_products_priorities]). *)
Definition priority_rank (p : str) : Z :=
  if eqb p (lit "critical") then 4
  else if eqb p (lit "high") then 3
  else if eqb p (lit "medium") then 2
  else if eqb p (lit "low") then 1
  else 0.

(** The ten issue types of the four checks. *)
Definition auditor_types : list str :=
  map lit ["description_length"; "missing_description"; "vague_language";
           "seo_title"; "seo_description_missing"; "seo_description_short";
           "seo_description_long"; "tone_not_premium"; "missing_cta";
           "missing_benefits"]%string.

(** The issue carries one of them. *)
Definition known_type (i : Issue.t) : Prop :=
  mem (Issue.type i) auditor_types = true.

(** The three triggers of the synthesizer. *)
Definition description_trigger (issues : list Issue.t) : bool :=
  GeneratorMCP._needs_description_rewrite (map Issue.type issues).
Definition seo_title_trigger (issues : list Issue.t) : bool :=
  mem (lit "seo_title") (map Issue.type issues).
Definition seo_description_trigger (issues : list Issue.t) : bool :=
  existsb (fun t => startswith t (lit "seo_description")) (map Issue.type issues).

(** The update entry of an optimization field that is set. *)
Definition entry (key : string) (field : option str) : list (str * str) :=
  match field with
  | Some v => [(lit key, v)]
  | None => []
  end.

(** The fields that were regenerated, under the keys of the payload. *)
Definition regenerated_fields (o : Optimization.t) : list (str * str) :=
  entry "description" (Optimization.optimized_description o)
  ++ entry "seo_title" (Optimization.optimized_seo_title o)
  ++ entry "seo_description" (Optimization.optimized_seo_description o).

(** Every field that is set holds a text that is not empty. *)
Definition set_fields_nonempty (o : Optimization.t) : Prop :=
  forall v,
    Optimization.optimized_description o = Some v
    \/ Optimization.optimized_seo_title o = Some v
    \/ Optimization.optimized_seo_description o = Some v ->
    v <> [].

(** The product of the end-to-end example. *)
Definition p1 : Product.t :=
  Product.mk (Some (lit "p1")) (Some (lit "Organic Face Cream"))
    (Some (lit "Good cream for your face. Made with natural stuff."))
    (Some (lit "LuxeBeauty")) (Some (lit "Skincare"))
    (Some (lit "")) (Some (lit "")).

(** A product whose copy passes every check. *)
Definition p_clean : Product.t :=
  Product.mk (Some (lit "p2")) (Some (lit "Radiance Serum"))
    (Some (lit "Discover our premium serum: it improves skin tone, reduces fine lines and promotes a radiant, healthy look every day."))
    (Some (lit "LuxeBeauty")) (Some (lit "Skincare"))
    (Some (lit "Radiance Serum | Anti-Aging Care | LuxeBeauty"))
    (Some (lit "Discover our premium serum that improves skin tone and reduces fine lines. Shop the collection today.")).

(** The number of results that carry the given priority. *)
Definition count_priority (level : string) (results : list ProcessingResult.t) : Z :=
  Z.of_nat
    (List.length
       (filter (fun r => eqb (ProcessingResult.priority r) (lit level)) results)).

(** The result carries an optimization. *)
Definition optimized (r : ProcessingResult.t) : bool :=
  match ProcessingResult.optimization r with
  | Some _ => true
  | None => false
  end.

(** A result built by hand whose priority is no level of the ladder. *)
Definition r_urgent : ProcessingResult.t :=
  ProcessingResult.mk (lit "p9") (lit "Soap")
    (AuditResult.mk (lit "p9") (lit "Soap") 0 [] (lit "none"))
    None false (lit "urgent").

(** The description is empty or holds only white space. *)
Definition blank (d : str) : Prop := strip d = [].

(** The description as the auditor reads it: an absent key reads as the
    empty string. *)
Definition description_of (p : Product.t) : str :=
  get (Product.description p) (lit "").

(** The five values of an aggregate severity. *)
Definition severity_levels : list str :=
  map lit ["none"; "low"; "medium"; "high"; "critical"]%string.

(** The keys a payload may hold. *)
Definition payload_keys : list str :=
  map lit ["description"; "seo_title"; "seo_description"]%string.

(** The issue types that ask for a new description. *)
Definition rewrite_types : list str :=
  map lit ["description_length"; "missing_description"; "vague_language";
           "tone_not_premium"; "missing_cta"; "missing_benefits"]%string.

(** The batch of the two concrete products. *)
Definition batch : list Product.t := [p1; p_clean].

(** Two issues built by hand, of types the synthesizer reads. *)
Definition issue_a : Issue.t :=
  Issue.mk (lit "seo_title") (lit "high") (lit "first").
Definition issue_b : Issue.t :=
  Issue.mk (lit "missing_cta") (lit "medium") (lit "second").

(* ================================================================== *)
(** ** Facts about strings and exceptions *)

Lemma eqb_spec (a b : str) : reflect (a = b) (eqb a b).
Proof.
  revert b; induction a as [|x a IH]; intros [|y b]; simpl;
    try (constructor; congruence).
  destruct (N.eqb_spec x y) as [->|Hxy]; simpl.
  - destruct (IH b) as [->|Hab]; constructor; congruence.
  - constructor; congruence.
Qed.

Lemma eqb_refl (a : str) : eqb a a = true.
Proof. destruct (eqb_spec a a); congruence. Qed.

Lemma eqb_eq (a b : str) : eqb a b = true <-> a = b.
Proof. destruct (eqb_spec a b); split; congruence. Qed.

Lemma mem_In (x : str) (xs : list str) : mem x xs = true <-> In x xs.
Proof.
  unfold mem; rewrite existsb_exists; split.
  - intros (y & Hy & E); apply eqb_eq in E; subst; assumption.
  - intros H; exists x; split; [assumption | apply eqb_refl].
Qed.

Lemma mem_cons (x y : str) (ys : list str) :
  mem x (y :: ys) = eqb x y || mem x ys.
Proof. reflexivity. Qed.

Lemma mem_not_In (x : str) (xs : list str) : mem x xs = false <-> ~ In x xs.
Proof.
  rewrite <- mem_In; destruct (mem x xs); split; congruence.
Qed.

Lemma truthy_false (s : str) : truthy s = false <-> s = [].
Proof. destruct s; simpl; split; congruence. Qed.

Lemma truthy_true (s : str) : truthy s = true <-> s <> [].
Proof. destruct s; simpl; split; congruence. Qed.

Lemma truthy_app (a b : str) : truthy (a ++ b) = truthy a || truthy b.
Proof. destruct a; reflexivity. Qed.

Lemma len_nonneg (s : str) : (0 <= len s)%Z.
Proof. unfold len; lia. Qed.

Lemma len_app (a b : str) : len (a ++ b) = (len a + len b)%Z.
Proof. unfold len; rewrite length_app; lia. Qed.

Lemma index_not_In (x : str) (xs : list str) :
  ~ In x xs -> index x xs = Raise ValueError.
Proof.
  induction xs as [|y xs IH]; simpl; intros H; [reflexivity|].
  destruct (eqb_spec y x) as [->|_]; [tauto|].
  rewrite IH by tauto; reflexivity.
Qed.

Lemma bind_Ok {A B : Type} (m : result A) (k : A -> result B) (b : B) :
  bind m k = Ok b -> exists a, m = Ok a /\ k a = Ok b.
Proof. destruct m as [a|e]; simpl; [eauto | discriminate]. Qed.

Lemma mapM_Forall {A B : Type} (f : A -> result B) (P : B -> Prop) :
  (forall x y, f x = Ok y -> P y) ->
  forall xs ys, mapM f xs = Ok ys -> Forall P ys.
Proof.
  intros Hf; induction xs as [|x xs IH]; simpl; intros ys H.
  - injection H as <-; constructor.
  - apply bind_Ok in H as (y & Hy & H).
    apply bind_Ok in H as (ys' & Hys & H).
    injection H as <-; constructor; eauto.
Qed.

Lemma mapM_length {A B : Type} (f : A -> result B) :
  forall xs ys, mapM f xs = Ok ys -> List.length ys = List.length xs.
Proof.
  induction xs as [|x xs IH]; simpl; intros ys H.
  - injection H as <-; reflexivity.
  - apply bind_Ok in H as (y & Hy & H).
    apply bind_Ok in H as (ys' & Hys & H).
    injection H as <-; simpl; f_equal; auto.
Qed.

Lemma mapM_total {A B : Type} (f : A -> result B) (xs : list A) :
  Forall (fun x => exists y, f x = Ok y) xs -> exists ys, mapM f xs = Ok ys.
Proof.
  induction 1 as [|x xs (y & Hy) _ (ys & Hys)]; simpl; [eauto|].
  rewrite Hy, Hys; simpl; eauto.
Qed.

Lemma filterM_pure {A : Type} (f : A -> result bool) (g : A -> bool) (xs : list A) :
  Forall (fun x => f x = Ok (g x)) xs -> filterM f xs = Ok (filter g xs).
Proof.
  induction 1 as [|x xs Hx _ IH]; simpl; [reflexivity|].
  rewrite Hx, IH; simpl; reflexivity.
Qed.

(* ================================================================== *)
(** ** Aggregate severity *)

Lemma any_severity_mem (level : string) (issues : list Issue.t) :
  mem (lit level) (map Issue.severity issues) = true <-> any_severity level issues.
Proof.
  rewrite mem_In, in_map_iff; unfold any_severity; split;
    intros (i & H1 & H2); exists i; tauto.
Qed.

Lemma any_severity_mem_false (level : string) (issues : list Issue.t) :
  mem (lit level) (map Issue.severity issues) = false <-> ~ any_severity level issues.
Proof.
  rewrite <- any_severity_mem.
  destruct (mem _ _); split; congruence.
Qed.

Lemma calculate_severity_cons (i : Issue.t) (rest : list Issue.t) :
  CheckerMCP._calculate_severity (i :: rest) =
  let sevs := map Issue.severity rest in
  if eqb (lit "critical") (Issue.severity i) || mem (lit "critical") sevs
  then lit "critical"
  else if eqb (lit "high") (Issue.severity i) || mem (lit "high") sevs
  then lit "high"
  else if eqb (lit "medium") (Issue.severity i) || mem (lit "medium") sevs
  then lit "medium"
  else lit "low".
Proof. reflexivity. Qed.

Lemma calculate_severity_rank_cons (i : Issue.t) (rest : list Issue.t) :
  In (Issue.severity i) issue_severities ->
  severity_rank (CheckerMCP._calculate_severity (i :: rest)) =
  Nat.max (severity_rank (Issue.severity i))
          (severity_rank (CheckerMCP._calculate_severity rest)).
Proof.
  intros Hi.
  rewrite calculate_severity_cons; cbv zeta.
  destruct rest as [|j rest].
  - simpl in Hi.
    destruct Hi as [<-|[<-|[<-|[<-|[]]]]]; reflexivity.
  - rewrite (calculate_severity_cons j rest); cbv zeta.
    rewrite !map_cons, !mem_cons.
    destruct (eqb (lit "critical") (Issue.severity j)
              || mem (lit "critical") (map Issue.severity rest));
    destruct (eqb (lit "high") (Issue.severity j)
              || mem (lit "high") (map Issue.severity rest));
    destruct (eqb (lit "medium") (Issue.severity j)
              || mem (lit "medium") (map Issue.severity rest));
    simpl in Hi; destruct Hi as [<-|[<-|[<-|[<-|[]]]]]; reflexivity.
Qed.

(** C5. The aggregate severity of an issue list is "critical" as soon as
    one issue is critical, whatever the others are; otherwise "high" if one
    is high; otherwise "medium" if one is medium; otherwise "low" if the
    list is not empty; and "none" for the empty list. When every issue
    carries one of the four severities, this is the maximum by rank. *)
Theorem C5_calculate_severity_max_by_rank (issues : list Issue.t) :
  (any_severity "critical" issues ->
   CheckerMCP._calculate_severity issues = lit "critical")
  /\ (~ any_severity "critical" issues -> any_severity "high" issues ->
      CheckerMCP._calculate_severity issues = lit "high")
  /\ (~ any_severity "critical" issues -> ~ any_severity "high" issues ->
      any_severity "medium" issues ->
      CheckerMCP._calculate_severity issues = lit "medium")
  /\ (~ any_severity "critical" issues -> ~ any_severity "high" issues ->
      ~ any_severity "medium" issues -> issues <> [] ->
      CheckerMCP._calculate_severity issues = lit "low")
  /\ (issues = [] -> CheckerMCP._calculate_severity issues = lit "none")
  /\ (Forall (fun i => In (Issue.severity i) issue_severities) issues ->
      severity_rank (CheckerMCP._calculate_severity issues)
      = list_max (map (fun i => severity_rank (Issue.severity i)) issues)).
Proof.
  repeat split.
  - intros Hc; destruct issues as [|i rest].
    + destruct Hc as (? & [] & _).
    + apply any_severity_mem in Hc.
      unfold CheckerMCP._calculate_severity; rewrite Hc; reflexivity.
  - intros Hc Hh; destruct issues as [|i rest].
    + destruct Hh as (? & [] & _).
    + apply any_severity_mem_false in Hc; apply any_severity_mem in Hh.
      unfold CheckerMCP._calculate_severity; rewrite Hc, Hh; reflexivity.
  - intros Hc Hh Hm; destruct issues as [|i rest].
    + destruct Hm as (? & [] & _).
    + apply any_severity_mem_false in Hc, Hh; apply any_severity_mem in Hm.
      unfold CheckerMCP._calculate_severity; rewrite Hc, Hh, Hm; reflexivity.
  - intros Hc Hh Hm Hne; destruct issues as [|i rest]; [congruence|].
    apply any_severity_mem_false in Hc, Hh, Hm.
    unfold CheckerMCP._calculate_severity; rewrite Hc, Hh, Hm; reflexivity.
  - intros ->; reflexivity.
  - induction 1 as [|i rest Hi _ IH]; [reflexivity|].
    rewrite calculate_severity_rank_cons by assumption.
    rewrite IH; reflexivity.
Qed.

(** The ladder at a concrete list: one critical issue among lesser ones. *)
Lemma C5_calculate_severity_witness :
  CheckerMCP._calculate_severity
    [Issue.mk (lit "missing_benefits") (lit "low") (lit "m1");
     Issue.mk (lit "missing_description") (lit "critical") (lit "m2");
     Issue.mk (lit "seo_title") (lit "high") (lit "m3")] = lit "critical".
Proof.
  apply (C5_calculate_severity_max_by_rank
           [Issue.mk (lit "missing_benefits") (lit "low") (lit "m1");
            Issue.mk (lit "missing_description") (lit "critical") (lit "m2");
            Issue.mk (lit "seo_title") (lit "high") (lit "m3")]).
  exists (Issue.mk (lit "missing_description") (lit "critical") (lit "m2")).
  split; [simpl; tauto | reflexivity].
Defined.

(* ================================================================== *)
(** ** Priority derivation *)

(** Two different literals are never equal. *)
Ltac lit_discr :=
  match goal with
  | H : lit _ = lit _ |- _ => vm_compute in H; discriminate H
  | H1 : ?s = lit _, H2 : ?s = lit _ |- _ =>
      rewrite H1 in H2; vm_compute in H2; discriminate H2
  | H1 : ?s = lit _, H2 : ?s <> lit _ |- _ => contradiction
  end.

(** C2. The priority of an audit follows the first-match ladder of
    [_determine_priority]: critical severity gives "critical"; otherwise
    high severity or at least 5 issues gives "high"; otherwise medium
    severity or at least 3 issues gives "medium"; otherwise any issue gives
    "low"; otherwise "none". In particular at least 5 issues with severity
    "low" or "medium" give "high". *)
Theorem C2_determine_priority_ladder (a : AuditResult.t) :
  (AuditResult.severity a = lit "critical" ->
   MCPServer._determine_priority a = lit "critical")
  /\ (AuditResult.severity a <> lit "critical" ->
      AuditResult.severity a = lit "high" \/ (AuditResult.issues_found a >= 5)%Z ->
      MCPServer._determine_priority a = lit "high")
  /\ (AuditResult.severity a <> lit "critical" ->
      ~ (AuditResult.severity a = lit "high" \/ (AuditResult.issues_found a >= 5)%Z) ->
      AuditResult.severity a = lit "medium" \/ (AuditResult.issues_found a >= 3)%Z ->
      MCPServer._determine_priority a = lit "medium")
  /\ (AuditResult.severity a <> lit "critical" ->
      ~ (AuditResult.severity a = lit "high" \/ (AuditResult.issues_found a >= 5)%Z) ->
      ~ (AuditResult.severity a = lit "medium" \/ (AuditResult.issues_found a >= 3)%Z) ->
      (AuditResult.issues_found a > 0)%Z ->
      MCPServer._determine_priority a = lit "low")
  /\ (AuditResult.severity a <> lit "critical" ->
      ~ (AuditResult.severity a = lit "high" \/ (AuditResult.issues_found a >= 5)%Z) ->
      ~ (AuditResult.severity a = lit "medium" \/ (AuditResult.issues_found a >= 3)%Z) ->
      ~ (AuditResult.issues_found a > 0)%Z ->
      MCPServer._determine_priority a = lit "none")
  /\ ((AuditResult.issues_found a >= 5)%Z ->
      AuditResult.severity a = lit "low" \/ AuditResult.severity a = lit "medium" ->
      MCPServer._determine_priority a = lit "high").
Proof.
  unfold MCPServer._determine_priority.
  destruct (eqb_spec (AuditResult.severity a) (lit "critical")) as [Hc|Hc];
  destruct (eqb_spec (AuditResult.severity a) (lit "high")) as [Hh|Hh];
  destruct (eqb_spec (AuditResult.severity a) (lit "medium")) as [Hm|Hm];
  destruct (Z.geb_spec (AuditResult.issues_found a) 5) as [H5|H5];
  destruct (Z.geb_spec (AuditResult.issues_found a) 3) as [H3|H3];
  destruct (Z.gtb_spec (AuditResult.issues_found a) 0) as [H0|H0];
  cbn [orb]; repeat split; intros;
  try reflexivity; try lia; try tauto; try lit_discr;
  repeat match goal with H : _ \/ _ |- _ => destruct H end;
  try lia; try tauto; try lit_discr.
Qed.

(** The count threshold at a concrete audit: severity "low", 6 issues. *)
Lemma C2_determine_priority_witness :
  MCPServer._determine_priority
    (AuditResult.mk (lit "p") (lit "t") 6
       (repeat (Issue.mk (lit "missing_benefits") (lit "low") (lit "m")) 6)
       (lit "low")) = lit "high".
Proof.
  apply (C2_determine_priority_ladder
           (AuditResult.mk (lit "p") (lit "t") 6
              (repeat (Issue.mk (lit "missing_benefits") (lit "low") (lit "m")) 6)
              (lit "low"))).
  - simpl; lia.
  - left; reflexivity.
Defined.

(* ================================================================== *)
(** ** The auditor's checks *)

(** C3. The SEO-description check emits at most one issue: an empty
    description gives [seo_description_missing] (high); a non-empty one
    shorter than 80 gives [seo_description_short] (medium); one longer than
    160 gives [seo_description_long] (low); a length in [80,160] gives none.
    Length 79 is short, 80 and 160 raise nothing, 161 is long. *)
Theorem C3_seo_description_tiers (p : Product.t) :
  (List.length (seo_description_issues p) <= 1)%nat
  /\ (seo_description_of p = [] ->
      map kind (seo_description_issues p)
      = [(lit "seo_description_missing", lit "high")])
  /\ (seo_description_of p <> [] -> (len (seo_description_of p) < 80)%Z ->
      map kind (seo_description_issues p)
      = [(lit "seo_description_short", lit "medium")])
  /\ ((len (seo_description_of p) > 160)%Z ->
      map kind (seo_description_issues p)
      = [(lit "seo_description_long", lit "low")])
  /\ ((80 <= len (seo_description_of p) <= 160)%Z ->
      seo_description_issues p = [])
  /\ (len (seo_description_of p) = 79%Z ->
      map kind (seo_description_issues p)
      = [(lit "seo_description_short", lit "medium")])
  /\ (len (seo_description_of p) = 80%Z -> seo_description_issues p = [])
  /\ (len (seo_description_of p) = 160%Z -> seo_description_issues p = [])
  /\ (len (seo_description_of p) = 161%Z ->
      map kind (seo_description_issues p)
      = [(lit "seo_description_long", lit "low")]).
Proof.
  unfold seo_description_issues, seo_description_of, CheckerMCP._check_seo_fields.
  cbv zeta.
  set (t := get (Product.seo_title p) (lit "")); clearbody t.
  set (d := get (Product.seo_description p) (lit "")); clearbody d.
  unfold CheckerMCP.MIN_SEO_DESCRIPTION_LENGTH, CheckerMCP.MAX_SEO_DESCRIPTION_LENGTH.
  destruct (negb (truthy t) || (len t <? CheckerMCP.MIN_SEO_TITLE_LENGTH)%Z);
  destruct (truthy d) eqn:Ht;
  [ apply truthy_true in Ht | apply truthy_false in Ht
  | apply truthy_true in Ht | apply truthy_false in Ht ];
  cbn [negb];
  destruct (Z.ltb_spec (len d) 80) as [Hlt|Hlt];
  destruct (Z.gtb_spec (len d) 160) as [Hgt|Hgt];
  repeat split; intros;
  try reflexivity; try lia; try congruence;
  try (exfalso; subst d; unfold len in *; simpl in *; lia);
  try (cbn; lia).
Qed.

(** The tiers at a concrete product: an SEO description of 79 characters. *)
Lemma C3_seo_description_witness :
  map kind
    (seo_description_issues
       (Product.mk (Some (lit "p")) (Some (lit "t")) None None None None
          (Some (repeat 120%N 79))))
  = [(lit "seo_description_short", lit "medium")].
Proof.
  apply (C3_seo_description_tiers
           (Product.mk (Some (lit "p")) (Some (lit "t")) None None None None
              (Some (repeat 120%N 79)))).
  reflexivity.
Defined.

Lemma check_description_empty :
  CheckerMCP._check_description (lit "")
  = [description_length_issue 0; missing_description_issue].
Proof. reflexivity. Qed.

(** C4. For a product whose description is the empty string the audit
    succeeds (given the id and the title it copies) and its issues hold
    both [description_length] (high) and [missing_description] (critical);
    the description check emits exactly these two. *)
Theorem C4_empty_description_two_issues
  (p : Product.t) (pid ptitle : str) :
  Product.id p = Some pid -> Product.title p = Some ptitle ->
  get (Product.description p) (lit "") = lit "" ->
  CheckerMCP._check_description (lit "")
  = [description_length_issue 0; missing_description_issue]
  /\ exists a, CheckerMCP.audit_product p = Ok a
     /\ In missing_description_issue (AuditResult.issues a)
     /\ In (description_length_issue 0) (AuditResult.issues a).
Proof.
  intros Hid Htitle Hdesc; split; [exact check_description_empty|].
  unfold CheckerMCP.audit_product.
  rewrite Hid, Htitle, Hdesc, check_description_empty.
  cbn [item bind]; eexists; split; [reflexivity|].
  cbn [AuditResult.issues app In]; split; [right; left | left]; reflexivity.
Qed.

Lemma C4_empty_description_witness :
  CheckerMCP._check_description (lit "")
  = [description_length_issue 0; missing_description_issue]
  /\ exists a,
     CheckerMCP.audit_product
       (Product.mk (Some (lit "p1")) (Some (lit "Face Cream")) (Some (lit ""))
          None None None None) = Ok a
     /\ In missing_description_issue (AuditResult.issues a)
     /\ In (description_length_issue 0) (AuditResult.issues a).
Proof.
  apply (C4_empty_description_two_issues
           (Product.mk (Some (lit "p1")) (Some (lit "Face Cream")) (Some (lit ""))
              None None None None) (lit "p1") (lit "Face Cream"));
    reflexivity.
Defined.

(* ================================================================== *)
(** ** The synthesized SEO title *)

(** C6. The synthesized SEO title is "{title} | {benefit}", where the
    benefit is chosen by the first of "cream", "serum" the title contains
    (case-insensitively) and is "Premium Quality" otherwise; " | {vendor}"
    follows when the vendor is not empty and the whole has at most 60
    characters; beyond 60 the vendor suffix is dropped and nothing else is
    cut, even when "{title} | {benefit}" alone has more than 60. *)
Theorem C6_generate_seo_title (p : Product.t) :
  exists benefit : str,
    (mentions "cream" (title_of p) = true -> benefit = lit "Nourishing & Anti-Aging")
    /\ (mentions "cream" (title_of p) = false ->
        mentions "serum" (title_of p) = true ->
        benefit = lit "Professional Anti-Aging Treatment")
    /\ (mentions "cream" (title_of p) = false ->
        mentions "serum" (title_of p) = false ->
        benefit = lit "Premium Quality")
    /\ (vendor_of p = [] ->
        GeneratorMCP._generate_seo_title p = title_of p ++ lit " | " ++ benefit)
    /\ (vendor_of p <> [] ->
        (len ((title_of p ++ lit " | " ++ benefit) ++ lit " | " ++ vendor_of p)
         <= 60)%Z ->
        GeneratorMCP._generate_seo_title p
        = (title_of p ++ lit " | " ++ benefit) ++ lit " | " ++ vendor_of p)
    /\ (vendor_of p <> [] ->
        (len ((title_of p ++ lit " | " ++ benefit) ++ lit " | " ++ vendor_of p)
         > 60)%Z ->
        GeneratorMCP._generate_seo_title p = title_of p ++ lit " | " ++ benefit)
    /\ ((len (title_of p ++ lit " | " ++ benefit) > 60)%Z ->
        GeneratorMCP._generate_seo_title p = title_of p ++ lit " | " ++ benefit).
Proof.
  unfold GeneratorMCP._generate_seo_title, mentions, title_of, vendor_of.
  cbv zeta.
  set (title := get (Product.title p) (lit "")); clearbody title.
  set (vendor := get (Product.vendor p) (lit "")); clearbody vendor.
  set (benefit :=
         if contains (lit "cream") (lower title)
         then lit "Nourishing & Anti-Aging"
         else if contains (lit "serum") (lower title)
              then lit "Professional Anti-Aging Treatment"
              else lit "Premium Quality").
  exists benefit.
  split; [|split; [|split]].
  - intros H; subst benefit; rewrite H; reflexivity.
  - intros H1 H2; subst benefit; rewrite H1, H2; reflexivity.
  - intros H1 H2; subst benefit; rewrite H1, H2; reflexivity.
  - clearbody benefit.
    set (base := title ++ lit " | " ++ benefit).
    destruct vendor as [|c vendor']; cbn [truthy].
    + repeat split; intros; try congruence;
        destruct (len base >? 60)%Z; reflexivity.
    + set (vendor := c :: vendor').
      destruct (Z.gtb_spec (len (base ++ lit " | " ++ vendor)) 60) as [Hgt|Hle];
        repeat split; intros; try reflexivity; try discriminate; try lia.
      rewrite len_app in Hle.
      pose proof (len_nonneg (lit " | " ++ vendor)); lia.
Qed.

(** The title of the first catalogue entry keeps its vendor (57
    characters); a longer vendor name is dropped. *)
Lemma C6_generate_seo_title_witness :
  GeneratorMCP._generate_seo_title
    (Product.mk (Some (lit "p1")) (Some (lit "Organic Face Cream")) None
       (Some (lit "LuxeBeauty")) None None None)
  = lit "Organic Face Cream | Nourishing & Anti-Aging | LuxeBeauty"
  /\ GeneratorMCP._generate_seo_title
       (Product.mk (Some (lit "p1")) (Some (lit "Organic Face Cream")) None
          (Some (lit "LuxeBeauty International")) None None None)
     = lit "Organic Face Cream | Nourishing & Anti-Aging".
Proof.
  split.
  - destruct (C6_generate_seo_title
                (Product.mk (Some (lit "p1")) (Some (lit "Organic Face Cream")) None
                   (Some (lit "LuxeBeauty")) None None None))
      as (benefit & Hc & _ & _ & _ & Hkeep & _).
    rewrite (Hc eq_refl) in Hkeep.
    apply Hkeep; vm_compute; discriminate.
  - destruct (C6_generate_seo_title
                (Product.mk (Some (lit "p1")) (Some (lit "Organic Face Cream")) None
                   (Some (lit "LuxeBeauty International")) None None None))
      as (benefit & Hc & _ & _ & _ & _ & Hdrop & _).
    rewrite (Hc eq_refl) in Hdrop.
    apply Hdrop; [vm_compute; discriminate | reflexivity].
Defined.

(* ================================================================== *)
(** ** The batch loop and the priority filter *)

Lemma index_priority_rank (p : str) :
  In p MCPServer.priority_order ->
  index p MCPServer.priority_order = Ok (priority_rank p).
Proof.
  intros H; simpl in H.
  destruct H as [<-|[<-|[<-|[<-|[<-|[]]]]]]; reflexivity.
Qed.

Lemma determine_priority_in_order (a : AuditResult.t) :
  In (MCPServer._determine_priority a) MCPServer.priority_order.
Proof.
  unfold MCPServer._determine_priority.
  repeat match goal with
         | |- context [if ?b then _ else _] => destruct b
         end; simpl; tauto.
Qed.

Lemma process_single_product_priority (p : Product.t) (r : ProcessingResult.t) :
  MCPServer.process_single_product p = Ok r ->
  ProcessingResult.priority r
  = MCPServer._determine_priority (ProcessingResult.audit r).
Proof.
  unfold MCPServer.process_single_product; intros H.
  apply bind_Ok in H as (a & _ & H).
  apply bind_Ok in H as (pid & _ & H).
  apply bind_Ok in H as (ptitle & _ & H).
  destruct (AuditResult.issues_found a >? 0)%Z.
  - apply bind_Ok in H as (o & _ & H); injection H as <-; reflexivity.
  - injection H as <-; reflexivity.
Qed.

Lemma process_products_priorities (products : list Product.t)
  (results : list ProcessingResult.t) :
  MCPServer.process_products products = Ok results ->
  Forall (fun r => In (ProcessingResult.priority r) MCPServer.priority_order) results.
Proof.
  apply mapM_Forall; intros p r H.
  rewrite (process_single_product_priority _ _ H).
  apply determine_priority_in_order.
Qed.

(** C7. With a threshold that is one of the five levels, the filtered run
    returns the results of the unfiltered run whose priority rank is at
    least the threshold's, in the order of the unfiltered run (and fails
    exactly as the unfiltered run fails); with "high" these are the results
    of priority "high" or "critical". *)
Theorem C7_filter_keeps_rank_at_least
  (products : list Product.t) (min_priority : str) :
  In min_priority MCPServer.priority_order ->
  MCPServer.process_batch_with_filters products min_priority
  = (all_results <- MCPServer.process_products products ;;
     Ok (filter
           (fun r => (priority_rank (ProcessingResult.priority r)
                      >=? priority_rank min_priority)%Z)
           all_results))
  /\ MCPServer.process_batch_with_filters products (lit "high")
     = (all_results <- MCPServer.process_products products ;;
        Ok (filter
              (fun r => eqb (ProcessingResult.priority r) (lit "high")
                        || eqb (ProcessingResult.priority r) (lit "critical"))
              all_results)).
Proof.
  assert (Hgen : forall mp, In mp MCPServer.priority_order ->
    MCPServer.process_batch_with_filters products mp
    = (all_results <- MCPServer.process_products products ;;
       Ok (filter
             (fun r => (priority_rank (ProcessingResult.priority r)
                        >=? priority_rank mp)%Z)
             all_results))).
  { intros mp Hmp.
    unfold MCPServer.process_batch_with_filters.
    rewrite (index_priority_rank _ Hmp); cbn [bind].
    destruct (MCPServer.process_products products) as [all|e] eqn:Hall;
      cbn [bind]; [|reflexivity].
    apply filterM_pure.
    eapply Forall_impl; [|exact (process_products_priorities _ _ Hall)].
    intros r Hr; cbv beta in Hr.
    rewrite (index_priority_rank _ Hr); reflexivity. }
  intros Hmin; split; [exact (Hgen _ Hmin)|].
  rewrite Hgen by (simpl; tauto).
  destruct (MCPServer.process_products products) as [all|e] eqn:Hall;
    cbn [bind]; [|reflexivity].
  f_equal; apply filter_ext_in; intros r Hr.
  pose proof (process_products_priorities _ _ Hall) as Hord.
  rewrite Forall_forall in Hord; specialize (Hord r Hr); simpl in Hord.
  destruct Hord as [<-|[<-|[<-|[<-|[<-|[]]]]]]; reflexivity.
Qed.

(** C8. With a threshold that is none of the five levels the filtered run
    raises [ValueError] (Python's invalid-argument error), whatever the
    batch; nothing is processed and no level is assumed. *)
Theorem C8_unknown_threshold_raises
  (products : list Product.t) (min_priority : str) :
  ~ In min_priority MCPServer.priority_order ->
  MCPServer.process_batch_with_filters products min_priority = Raise ValueError.
Proof.
  intros H; unfold MCPServer.process_batch_with_filters.
  rewrite (index_not_In _ _ H); reflexivity.
Qed.

(* ================================================================== *)
(** ** What the auditor emits and what the synthesizer answers *)

Ltac known_types :=
  cbn [app]; repeat (constructor; try reflexivity).

Lemma check_description_types (d : str) :
  Forall known_type (CheckerMCP._check_description d).
Proof.
  unfold CheckerMCP._check_description; cbv zeta.
  destruct (len d <? CheckerMCP.MIN_DESCRIPTION_LENGTH)%Z;
  destruct (negb (truthy d) || eqb (strip d) (lit ""));
  destruct (filter _ _); known_types.
Qed.

Lemma check_seo_fields_types (p : Product.t) :
  Forall known_type (CheckerMCP._check_seo_fields p).
Proof.
  unfold CheckerMCP._check_seo_fields; cbv zeta.
  repeat match goal with
         | |- context [if ?b then _ else _] => destruct b
         end; known_types.
Qed.

Lemma check_tone_types (d : str) :
  Forall known_type (CheckerMCP._check_tone d).
Proof.
  unfold CheckerMCP._check_tone; cbv zeta.
  destruct (negb _); known_types.
Qed.

Lemma check_conversion_elements_types (d : str) :
  Forall known_type (CheckerMCP._check_conversion_elements d).
Proof.
  unfold CheckerMCP._check_conversion_elements; cbv zeta.
  destruct (negb (existsb _ CheckerMCP.CTA_KEYWORDS));
  destruct (negb (existsb _ CheckerMCP.BENEFIT_KEYWORDS)); known_types.
Qed.

(** The audit record: what [audit_product] returns when it returns. *)
Lemma audit_product_Ok (p : Product.t) (a : AuditResult.t) :
  CheckerMCP.audit_product p = Ok a ->
  let d := get (Product.description p) (lit "") in
  Product.id p = Some (AuditResult.product_id a)
  /\ Product.title p = Some (AuditResult.product_title a)
  /\ AuditResult.issues a
     = CheckerMCP._check_description d ++ CheckerMCP._check_seo_fields p
       ++ CheckerMCP._check_tone d ++ CheckerMCP._check_conversion_elements d
  /\ AuditResult.issues_found a = Z.of_nat (List.length (AuditResult.issues a))
  /\ AuditResult.severity a = CheckerMCP._calculate_severity (AuditResult.issues a).
Proof.
  unfold CheckerMCP.audit_product; cbv zeta; intros H.
  destruct (Product.id p) as [pid|]; [|discriminate].
  destruct (Product.title p) as [ptitle|]; [|discriminate].
  cbn [item bind] in H; injection H as <-.
  cbn [AuditResult.product_id AuditResult.product_title AuditResult.issues
       AuditResult.issues_found AuditResult.severity].
  rewrite ?app_nil_l, <- ?app_assoc; auto.
Qed.

Lemma audit_product_types (p : Product.t) (a : AuditResult.t) :
  CheckerMCP.audit_product p = Ok a -> Forall known_type (AuditResult.issues a).
Proof.
  intros H; destruct (audit_product_Ok _ _ H) as (_ & _ & -> & _).
  repeat (apply Forall_app; split);
    auto using check_description_types, check_seo_fields_types,
      check_tone_types, check_conversion_elements_types.
Qed.

Lemma known_type_triggers (i : Issue.t) (issues : list Issue.t) :
  In i issues -> known_type i ->
  description_trigger issues || seo_title_trigger issues
  || seo_description_trigger issues = true.
Proof.
  intros Hin Hk.
  assert (Ht : In (Issue.type i) (map Issue.type issues)) by (apply in_map; exact Hin).
  apply mem_In in Hk; simpl in Hk.
  assert (Hd : forall t, In t (map Issue.type issues) ->
                    mem t (map lit ["description_length"; "missing_description";
                                    "vague_language"; "tone_not_premium";
                                    "missing_cta"; "missing_benefits"]%string) = true ->
                    description_trigger issues = true).
  { intros t Hin' Hm; unfold description_trigger, GeneratorMCP._needs_description_rewrite.
    cbv zeta; apply existsb_exists; exists t; split;
      [apply mem_In; exact Hm | apply mem_In; exact Hin']. }
  assert (Hs : forall t, In t (map Issue.type issues) ->
                    startswith t (lit "seo_description") = true ->
                    seo_description_trigger issues = true).
  { intros t Hin' Hm; unfold seo_description_trigger.
    apply existsb_exists; exists t; auto. }
  destruct Hk as [E|[E|[E|[E|[E|[E|[E|[E|[E|[E|[]]]]]]]]]]]; rewrite <- E in Ht.
  1-3, 8-10: rewrite (Hd _ Ht eq_refl); reflexivity.
  - unfold seo_title_trigger; apply mem_In in Ht; rewrite Ht.
    apply orb_true_iff; left; apply orb_true_r.
  - rewrite (Hs _ Ht eq_refl); apply orb_true_r.
  - rewrite (Hs _ Ht eq_refl); apply orb_true_r.
  - rewrite (Hs _ Ht eq_refl); apply orb_true_r.
Qed.

Lemma generate_description_truthy (p : Product.t) :
  truthy (GeneratorMCP._generate_description p) = true.
Proof.
  unfold GeneratorMCP._generate_description; cbv zeta.
  repeat match goal with
         | |- context [if ?b then _ else _] => destruct b
         end; reflexivity.
Qed.

Lemma generate_seo_title_truthy (p : Product.t) :
  truthy (GeneratorMCP._generate_seo_title p) = true.
Proof.
  unfold GeneratorMCP._generate_seo_title; cbv zeta.
  repeat match goal with
         | |- context [if ?b then _ else _] => destruct b
         end;
  rewrite ?truthy_app; cbn [truthy lit]; rewrite ?orb_true_r; reflexivity.
Qed.

Lemma generate_seo_description_truthy (p : Product.t) :
  truthy (GeneratorMCP._generate_seo_description p) = true.
Proof.
  unfold GeneratorMCP._generate_seo_description; cbv zeta.
  repeat match goal with
         | |- context [if ?b then _ else _] => destruct b
         end;
  try reflexivity; rewrite truthy_app; apply orb_true_r.
Qed.

(** What [generate_optimized_content] returns, field by field. *)
Lemma generate_optimized_content_Ok
  (p : Product.t) (issues : list Issue.t) (pid : str) :
  Product.id p = Some pid ->
  GeneratorMCP.generate_optimized_content p issues
  = Ok (Optimization.mk pid (get (Product.description p) (lit ""))
          (if description_trigger issues
           then Some (GeneratorMCP._generate_description p) else None)
          (if seo_title_trigger issues
           then Some (GeneratorMCP._generate_seo_title p) else None)
          (if seo_description_trigger issues
           then Some (GeneratorMCP._generate_seo_description p) else None)
          ((if description_trigger issues
            then [lit "Rewrote product description with premium tone"] else [])
           ++ (if seo_title_trigger issues
               then [lit "Created SEO-optimized title"] else [])
           ++ (if seo_description_trigger issues
               then [lit "Created SEO meta description"] else []))).
Proof.
  intros Hid.
  unfold GeneratorMCP.generate_optimized_content, description_trigger,
    seo_title_trigger, seo_description_trigger; cbv zeta.
  rewrite Hid; cbn [item bind].
  destruct (GeneratorMCP._needs_description_rewrite _);
  destruct (mem (lit "seo_title") _);
  destruct (existsb _ _); reflexivity.
Qed.

(** What [process_single_product] returns when it returns. *)
Lemma process_single_product_Ok (p : Product.t) (r : ProcessingResult.t) :
  MCPServer.process_single_product p = Ok r ->
  exists a,
    CheckerMCP.audit_product p = Ok a
    /\ ProcessingResult.audit r = a
    /\ ProcessingResult.product_id r = AuditResult.product_id a
    /\ ((AuditResult.issues_found a <= 0)%Z /\ ProcessingResult.optimization r = None
        \/ (AuditResult.issues_found a > 0)%Z
           /\ exists o, GeneratorMCP.generate_optimized_content p (AuditResult.issues a)
                        = Ok o
                        /\ ProcessingResult.optimization r = Some o).
Proof.
  unfold MCPServer.process_single_product; intros H.
  destruct (CheckerMCP.audit_product p) as [a|e] eqn:Ha; [|discriminate].
  destruct (audit_product_Ok _ _ Ha) as (Hid & Htitle & _).
  cbn [bind] in H; rewrite Hid, Htitle in H; cbn [item bind] in H.
  exists a; split; [reflexivity|].
  destruct (Z.gtb_spec (AuditResult.issues_found a) 0) as [Hpos|Hzero].
  - apply bind_Ok in H as (o & Ho & H); injection H as <-.
    cbn [ProcessingResult.audit ProcessingResult.product_id
         ProcessingResult.optimization].
    repeat split; right; split; [lia|eauto].
  - injection H as <-.
    cbn [ProcessingResult.audit ProcessingResult.product_id
         ProcessingResult.optimization].
    repeat split; left; split; [lia|reflexivity].
Qed.

(** Processing cannot fail on a product that has its id and its title. *)
Lemma process_single_product_total (p : Product.t) (pid ptitle : str) :
  Product.id p = Some pid -> Product.title p = Some ptitle ->
  exists r, MCPServer.process_single_product p = Ok r.
Proof.
  intros Hid Htitle.
  unfold MCPServer.process_single_product, CheckerMCP.audit_product; cbv zeta.
  rewrite Hid, Htitle; cbn [item bind].
  destruct (_ >? 0)%Z; [|eauto].
  rewrite (generate_optimized_content_Ok _ _ _ Hid); cbn [bind]; eauto.
Qed.

(** Hence a batch whose products all have both is processed whole, one
    result per product. *)
Lemma process_products_total (products : list Product.t) :
  Forall (fun p => Product.id p <> None /\ Product.title p <> None) products ->
  exists results,
    MCPServer.process_products products = Ok results
    /\ List.length results = List.length products.
Proof.
  intros H.
  destruct (mapM_total MCPServer.process_single_product products) as [results Hr].
  - eapply Forall_impl; [|exact H].
    intros p (Hid & Htitle).
    destruct (Product.id p) as [pid|] eqn:Eid; [|congruence].
    destruct (Product.title p) as [ptitle|] eqn:Etitle; [|congruence].
    exact (process_single_product_total p pid ptitle Eid Etitle).
  - exists results; split; [exact Hr|].
    exact (mapM_length _ _ _ Hr).
Qed.

(* ================================================================== *)
(** ** Export for update *)

Lemma generated_fields (p : Product.t) (issues : list Issue.t) (o : Optimization.t) :
  GeneratorMCP.generate_optimized_content p issues = Ok o ->
  set_fields_nonempty o
  /\ (description_trigger issues || seo_title_trigger issues
      || seo_description_trigger issues = true ->
      regenerated_fields o <> [] /\ Optimization.improvements_made o <> []).
Proof.
  intros H.
  destruct (Product.id p) as [pid|] eqn:Hid;
    [|unfold GeneratorMCP.generate_optimized_content in H; rewrite Hid in H;
      discriminate].
  rewrite (generate_optimized_content_Ok _ _ _ Hid) in H; injection H as <-.
  unfold set_fields_nonempty, regenerated_fields.
  cbn [Optimization.optimized_description Optimization.optimized_seo_title
       Optimization.optimized_seo_description Optimization.improvements_made].
  split.
  - intros v [E|[E|E]];
      [destruct (description_trigger issues)
      |destruct (seo_title_trigger issues)
      |destruct (seo_description_trigger issues)];
      try discriminate; injection E as <-; apply truthy_true;
      auto using generate_description_truthy, generate_seo_title_truthy,
        generate_seo_description_truthy.
  - destruct (description_trigger issues), (seo_title_trigger issues),
      (seo_description_trigger issues); cbn [orb entry app];
      intros; split; discriminate.
Qed.

Lemma export_of_optimization (r : ProcessingResult.t) (o : Optimization.t) :
  ProcessingResult.optimization r = Some o -> set_fields_nonempty o ->
  MCPServer.export_for_shopify r
  = match regenerated_fields o with
    | [] => None
    | _ :: _ => Some (Payload.mk (ProcessingResult.product_id r) (regenerated_fields o))
    end.
Proof.
  intros Ho Hne; unfold MCPServer.export_for_shopify, regenerated_fields.
  rewrite Ho; cbv zeta.
  assert (Hput : forall key f u,
             (forall v, f = Some v -> v <> []) ->
             MCPServer.put_if_truthy key f u = u ++ entry key f).
  { intros key [v|] u Hv; cbn [MCPServer.put_if_truthy entry];
      [|rewrite app_nil_r; reflexivity].
    destruct v as [|c v]; [destruct (Hv [] eq_refl eq_refl)|reflexivity]. }
  rewrite !Hput by (intros v E; apply Hne; tauto).
  rewrite app_nil_l, <- app_assoc; reflexivity.
Qed.

Lemma export_updates_nonempty (r : ProcessingResult.t) (payload : Payload.t) :
  MCPServer.export_for_shopify r = Some payload -> Payload.updates payload <> [].
Proof.
  unfold MCPServer.export_for_shopify.
  destruct (ProcessingResult.optimization r) as [o|]; [|discriminate].
  cbv zeta.
  destruct (MCPServer.put_if_truthy "seo_description" _ _) as [|e u];
    [discriminate|].
  intros H; injection H as <-; discriminate.
Qed.

Lemma processed_fields_nonempty
  (p : Product.t) (r : ProcessingResult.t) (o : Optimization.t) :
  MCPServer.process_single_product p = Ok r ->
  ProcessingResult.optimization r = Some o -> set_fields_nonempty o.
Proof.
  intros H Ho.
  destruct (process_single_product_Ok _ _ H)
    as (a & _ & _ & _ & [(_ & Hn)|(_ & o' & Hgen & Ho')]); [congruence|].
  assert (o' = o) as -> by congruence.
  exact (proj1 (generated_fields _ _ _ Hgen)).
Qed.

(** C9. Export-for-update returns no payload when the result has no
    optimization or when no field was regenerated; otherwise the payload
    holds the product id and exactly the regenerated fields, and its
    updates are never empty. The results the coordinator produces are
    such results (a field that is set holds a generated, non-empty text),
    and a product with zero issues found yields no payload. *)
Theorem C9_export_for_update :
  (forall r, ProcessingResult.optimization r = None ->
             MCPServer.export_for_shopify r = None)
  /\ (forall r o,
        ProcessingResult.optimization r = Some o -> set_fields_nonempty o ->
        (regenerated_fields o = [] -> MCPServer.export_for_shopify r = None)
        /\ (regenerated_fields o <> [] ->
            MCPServer.export_for_shopify r
            = Some (Payload.mk (ProcessingResult.product_id r) (regenerated_fields o))))
  /\ (forall r payload,
        MCPServer.export_for_shopify r = Some payload -> Payload.updates payload <> [])
  /\ (forall p r,
        MCPServer.process_single_product p = Ok r ->
        (forall o, ProcessingResult.optimization r = Some o -> set_fields_nonempty o)
        /\ (AuditResult.issues_found (ProcessingResult.audit r) = 0%Z ->
            MCPServer.export_for_shopify r = None)).
Proof.
  split; [|split; [|split]].
  - intros r H; unfold MCPServer.export_for_shopify; rewrite H; reflexivity.
  - intros r o Ho Hne; rewrite (export_of_optimization _ _ Ho Hne).
    destruct (regenerated_fields o); split; intros; congruence.
  - exact export_updates_nonempty.
  - intros p r H; split.
    + intros o; exact (processed_fields_nonempty p r o H).
    + intros Hz.
      destruct (process_single_product_Ok _ _ H)
        as (a & _ & <- & _ & [(_ & Hn)|(Hpos & _)]); [|lia].
      unfold MCPServer.export_for_shopify; rewrite Hn; reflexivity.
Qed.

(** C10. Every issue type of the auditor triggers a field of the
    synthesizer: when the audit of a product finds an issue, the
    synthesized optimization has one of its three fields set to a text
    that is not empty and records an improvement; hence a processed
    product with issues found exports a payload with updates. *)
Theorem C10_issues_always_regenerate :
  (forall p a,
     CheckerMCP.audit_product p = Ok a -> AuditResult.issues a <> [] ->
     exists o,
       GeneratorMCP.generate_optimized_content p (AuditResult.issues a) = Ok o
       /\ (exists v,
             (Optimization.optimized_description o = Some v
              \/ Optimization.optimized_seo_title o = Some v
              \/ Optimization.optimized_seo_description o = Some v)
             /\ v <> [])
       /\ Optimization.improvements_made o <> [])
  /\ (forall p r,
        MCPServer.process_single_product p = Ok r ->
        (AuditResult.issues_found (ProcessingResult.audit r) > 0)%Z ->
        exists payload,
          MCPServer.export_for_shopify r = Some payload
          /\ Payload.product_id payload = ProcessingResult.product_id r
          /\ Payload.updates payload <> []).
Proof.
  assert (Hfire : forall p a,
             CheckerMCP.audit_product p = Ok a -> AuditResult.issues a <> [] ->
             description_trigger (AuditResult.issues a)
             || seo_title_trigger (AuditResult.issues a)
             || seo_description_trigger (AuditResult.issues a) = true).
  { intros p a Ha Hne.
    pose proof (audit_product_types _ _ Ha) as Hk.
    destruct (AuditResult.issues a) as [|i rest] eqn:E; [congruence|].
    apply known_type_triggers with (i := i); [left; reflexivity|].
    inversion Hk; assumption. }
  split.
  - intros p a Ha Hne.
    destruct (audit_product_Ok _ _ Ha) as (Hid & _).
    pose proof (generate_optimized_content_Ok p (AuditResult.issues a) _ Hid) as Hgen.
    eexists; split; [exact Hgen|].
    destruct (generated_fields _ _ _ Hgen) as (Hset & Hreg).
    destruct (Hreg (Hfire _ _ Ha Hne)) as (Hr & Hi).
    split; [|exact Hi].
    unfold regenerated_fields in Hr; unfold set_fields_nonempty in Hset.
    match type of Hgen with _ = Ok ?x => set (o := x) in * end; clearbody o.
    destruct (Optimization.optimized_description o) as [v|] eqn:E1;
      [exists v; split; [tauto | apply Hset; tauto]|].
    destruct (Optimization.optimized_seo_title o) as [v|] eqn:E2;
      [exists v; split; [tauto | apply Hset; tauto]|].
    destruct (Optimization.optimized_seo_description o) as [v|] eqn:E3;
      [exists v; split; [tauto | apply Hset; tauto]|].
    exfalso; apply Hr; reflexivity.
  - intros p r H Hpos.
    destruct (process_single_product_Ok _ _ H)
      as (a & Ha & <- & _ & [(Hz & _)|(_ & o & Hgen & Ho)]); [lia|].
    destruct (audit_product_Ok _ _ Ha) as (_ & _ & _ & Hlen & _).
    assert (Hne : AuditResult.issues (ProcessingResult.audit r) <> []).
    { intros E; rewrite Hlen, E in Hpos; simpl in Hpos; lia. }
    destruct (generated_fields _ _ _ Hgen) as (Hset & Hreg).
    destruct (Hreg (Hfire _ _ Ha Hne)) as (Hr & _).
    rewrite (export_of_optimization _ _ Ho Hset).
    destruct (regenerated_fields o) as [|e u] eqn:E; [congruence|].
    eexists; repeat split; discriminate.
Qed.

(* ================================================================== *)
(** ** The example product and concrete runs *)

Lemma incl_forallb_mem (xs ys : list str) :
  forallb (fun x => mem x ys) xs = true -> incl xs ys.
Proof.
  rewrite forallb_forall; intros H x Hx; apply mem_In; auto.
Qed.

(** C1. Processing the example product succeeds; its audit holds the six
    issue types of the example (and [missing_benefits]); the priority is
    "high"; the optimization sets its three fields and records exactly
    three improvements. *)
Theorem C1_end_to_end_example :
  exists r o d t s,
    MCPServer.process_single_product p1 = Ok r
    /\ incl (map lit ["description_length"; "vague_language"; "seo_title";
                      "seo_description_missing"; "tone_not_premium";
                      "missing_cta"]%string)
            (map Issue.type (AuditResult.issues (ProcessingResult.audit r)))
    /\ In (Issue.mk (lit "vague_language") (lit "medium")
             (lit "Contains vague terms: good, stuff"))
          (AuditResult.issues (ProcessingResult.audit r))
    /\ AuditResult.issues_found (ProcessingResult.audit r) = 7%Z
    /\ ProcessingResult.priority r = lit "high"
    /\ ProcessingResult.optimization r = Some o
    /\ Optimization.optimized_description o = Some d
    /\ Optimization.optimized_seo_title o = Some t
    /\ Optimization.optimized_seo_description o = Some s
    /\ t = lit "Organic Face Cream | Nourishing & Anti-Aging | LuxeBeauty"
    /\ List.length (Optimization.improvements_made o) = 3%nat.
Proof.
  destruct (MCPServer.process_single_product p1) as [r|e] eqn:Hr;
    vm_compute in Hr; [|discriminate Hr].
  injection Hr as <-.
  do 5 eexists.
  split; [reflexivity|].
  split; [apply incl_forallb_mem; vm_compute; reflexivity|].
  split; [vm_compute; tauto|].
  repeat split; vm_compute; reflexivity.
Qed.

(** The filter at a batch of two, one of priority "high" and one of
    priority "none", with the threshold "medium". *)
Lemma C7_filter_witness :
  MCPServer.process_batch_with_filters [p1; p_clean] (lit "medium")
  = (all_results <- MCPServer.process_products [p1; p_clean] ;;
     Ok (filter
           (fun r => (priority_rank (ProcessingResult.priority r)
                      >=? priority_rank (lit "medium"))%Z)
           all_results))
  /\ MCPServer.process_batch_with_filters [p1; p_clean] (lit "high")
     = (all_results <- MCPServer.process_products [p1; p_clean] ;;
        Ok (filter
              (fun r => eqb (ProcessingResult.priority r) (lit "high")
                        || eqb (ProcessingResult.priority r) (lit "critical"))
              all_results)).
Proof.
  apply (C7_filter_keeps_rank_at_least [p1; p_clean] (lit "medium")).
  simpl; right; right; left; reflexivity.
Defined.

(** The filtered run of that batch keeps the first product only. *)
Example filter_high_keeps_p1 :
  exists r,
    MCPServer.process_batch_with_filters [p1; p_clean] (lit "high") = Ok [r]
    /\ ProcessingResult.product_id r = lit "p1".
Proof.
  destruct (MCPServer.process_batch_with_filters [p1; p_clean] (lit "high"))
    as [[|r [|r' rs]]|e] eqn:H; vm_compute in H; try discriminate H.
  injection H as <-; eexists; split; reflexivity.
Qed.

Lemma C8_unknown_threshold_witness :
  MCPServer.process_batch_with_filters [p1; p_clean] (lit "urgent")
  = Raise ValueError.
Proof.
  apply (C8_unknown_threshold_raises [p1; p_clean] (lit "urgent")).
  intros H; simpl in H.
  repeat (destruct H as [H|H]; [vm_compute in H; discriminate H|]).
  exact H.
Defined.

(** Export at the two products: no payload for the clean one, the three
    regenerated fields for the example product. *)
Lemma C9_export_witness :
  (exists r,
     MCPServer.process_single_product p_clean = Ok r
     /\ MCPServer.export_for_shopify r = None)
  /\ (exists r o,
        MCPServer.process_single_product p1 = Ok r
        /\ ProcessingResult.optimization r = Some o
        /\ MCPServer.export_for_shopify r
           = Some (Payload.mk (lit "p1") (regenerated_fields o))
        /\ map fst (regenerated_fields o)
           = map lit ["description"; "seo_title"; "seo_description"]%string).
Proof.
  destruct C9_export_for_update as (_ & Hsome & _ & Hproc).
  split.
  - destruct (MCPServer.process_single_product p_clean) as [r|e] eqn:Hr;
      [|vm_compute in Hr; discriminate Hr].
    exists r; split; [reflexivity|].
    apply (Hproc p_clean r Hr).
    vm_compute in Hr; injection Hr as <-; reflexivity.
  - destruct (MCPServer.process_single_product p1) as [r|e] eqn:Hr;
      [|vm_compute in Hr; discriminate Hr].
    destruct (ProcessingResult.optimization r) as [o|] eqn:Ho;
      [|vm_compute in Hr; injection Hr as <-; discriminate Ho].
    exists r, o; split; [reflexivity|]; split; [exact Ho|].
    destruct (Hsome r o Ho (proj1 (Hproc p1 r Hr) o Ho)) as (_ & Hpay).
    assert (Hid : ProcessingResult.product_id r = lit "p1")
      by (vm_compute in Hr; injection Hr as <-; reflexivity).
    assert (Hkeys : map fst (regenerated_fields o)
                    = map lit ["description"; "seo_title"; "seo_description"]%string)
      by (vm_compute in Hr; injection Hr as <-; vm_compute in Ho;
          injection Ho as <-; reflexivity).
    split; [|exact Hkeys].
    rewrite <- Hid; apply Hpay.
    intros E; rewrite E in Hkeys; discriminate Hkeys.
Defined.

(** The example product has issues, so its export carries updates. *)
Lemma C10_issues_regenerate_witness :
  exists r payload,
    MCPServer.process_single_product p1 = Ok r
    /\ MCPServer.export_for_shopify r = Some payload
    /\ Payload.product_id payload = ProcessingResult.product_id r
    /\ Payload.updates payload <> [].
Proof.
  destruct (MCPServer.process_single_product p1) as [r|e] eqn:Hr;
    [|vm_compute in Hr; discriminate Hr].
  destruct (proj2 C10_issues_always_regenerate p1 r Hr) as (payload & H).
  - vm_compute in Hr; injection Hr as <-; reflexivity.
  - exists r, payload; split; [reflexivity | exact H].
Defined.

(* ================================================================== *)
(** ** Batch statistics *)

(** Comparisons of literals are replaced by their values. *)
Ltac eval_eqb :=
  repeat match goal with
         | |- context [eqb (lit ?a) (lit ?b)] =>
             let v := eval vm_compute in (eqb (lit a) (lit b)) in
             change (eqb (lit a) (lit b)) with v
         end.

Lemma sum_from (xs : list Z) (acc : Z) :
  fold_left Z.add xs acc = (acc + fold_left Z.add xs 0)%Z.
Proof.
  revert acc; induction xs as [|x xs IH]; intros acc; simpl; [lia|].
  rewrite (IH (acc + x)%Z), (IH x); lia.
Qed.

Lemma sum_cons (x : Z) (xs : list Z) :
  MCPServer.sum (x :: xs) = (x + MCPServer.sum xs)%Z.
Proof. unfold MCPServer.sum; simpl; apply sum_from. Qed.

Lemma count_priority_cons (level : string) (r : ProcessingResult.t)
  (rest : list ProcessingResult.t) :
  count_priority level (r :: rest)
  = ((if eqb (ProcessingResult.priority r) (lit level) then 1 else 0)
     + count_priority level rest)%Z.
Proof.
  unfold count_priority; simpl filter.
  destruct (eqb _ _); simpl List.length; lia.
Qed.

(** The loop over results whose priorities are levels of the ladder adds
    each result to the counter of its priority. *)
Lemma count_priorities_ladder (results : list ProcessingResult.t) :
  Forall (fun r => In (ProcessingResult.priority r) MCPServer.priority_order) results ->
  forall c h m l n : Z,
    MCPServer.count_priorities results
      [(lit "critical", c); (lit "high", h); (lit "medium", m);
       (lit "low", l); (lit "none", n)]
    = Ok [(lit "critical", (c + count_priority "critical" results)%Z);
          (lit "high", (h + count_priority "high" results)%Z);
          (lit "medium", (m + count_priority "medium" results)%Z);
          (lit "low", (l + count_priority "low" results)%Z);
          (lit "none", (n + count_priority "none" results)%Z)].
Proof.
  induction 1 as [|r rest Hr _ IH]; intros c h m l n.
  - unfold count_priority; simpl; rewrite !Z.add_0_r; reflexivity.
  - rewrite !count_priority_cons.
    cbn [MCPServer.count_priorities]; cbv zeta.
    simpl in Hr.
    destruct Hr as [E|[E|[E|[E|[E|[]]]]]]; rewrite <- E;
      cbn [MCPServer.increment]; eval_eqb; cbn [bind]; rewrite IH;
      rewrite ?Z.add_0_l, ?Z.add_assoc; reflexivity.
Qed.

Lemma count_priority_total (results : list ProcessingResult.t) :
  Forall (fun r => In (ProcessingResult.priority r) MCPServer.priority_order) results ->
  (count_priority "critical" results + count_priority "high" results
   + count_priority "medium" results + count_priority "low" results
   + count_priority "none" results = Z.of_nat (List.length results))%Z.
Proof.
  induction 1 as [|r rest Hr _ IH]; [reflexivity|].
  rewrite !count_priority_cons.
  simpl in Hr.
  destruct Hr as [E|[E|[E|[E|[E|[]]]]]]; rewrite <- E; eval_eqb;
    simpl List.length; lia.
Qed.

Lemma increment_missing (key : str) (counts : list (str * Z)) :
  ~ In key (map fst counts) ->
  MCPServer.increment key counts = Raise (KeyError key).
Proof.
  induction counts as [|[k n] rest IH]; simpl; intros H; [reflexivity|].
  destruct (eqb_spec k key) as [->|_]; [tauto|].
  rewrite IH by tauto; reflexivity.
Qed.

Lemma count_priorities_app (a b : list ProcessingResult.t) (counts : list (str * Z)) :
  MCPServer.count_priorities (a ++ b) counts
  = (counts' <- MCPServer.count_priorities a counts ;;
     MCPServer.count_priorities b counts').
Proof.
  revert counts; induction a as [|r a IH]; intros counts; [reflexivity|].
  cbn [app MCPServer.count_priorities]; cbv zeta.
  destruct (MCPServer.increment _ counts) as [counts'|e]; cbn [bind];
    [apply IH | reflexivity].
Qed.

(** The rate of a batch that is not empty: the tenths of 100. *)
Lemma round_half_even_full (n : Z) :
  (0 < n)%Z ->
  MCPServer.round_half_even (MCPServer.true_div n n * 100 * 10) = 1000%Z.
Proof.
  intros Hn.
  unfold MCPServer.round_half_even, MCPServer.true_div; cbv zeta.
  cbn [Qnum Qden Qmult].
  rewrite !Pos.mul_1_r, Z2Pos.id by exact Hn.
  replace (n * 100 * 10)%Z with (1000 * n)%Z by lia.
  rewrite Z.div_mul, Z.mod_mul by lia.
  destruct (Z.ltb_spec (2 * 0) n); [reflexivity | lia].
Qed.

(** X1. When every result carries a priority of the ladder (as every result
    of the coordinator does), the statistics are returned, the breakdown
    holds the five levels in the order critical, high, medium, low, none,
    each with the number of results of that priority, and the five counts
    add up to the number of results. *)
Theorem X1_statistics_breakdown (results : list ProcessingResult.t) :
  Forall (fun r => In (ProcessingResult.priority r) MCPServer.priority_order) results ->
  exists s,
    MCPServer.get_statistics results = Ok s
    /\ Statistics.priority_breakdown s
       = [(lit "critical", count_priority "critical" results);
          (lit "high", count_priority "high" results);
          (lit "medium", count_priority "medium" results);
          (lit "low", count_priority "low" results);
          (lit "none", count_priority "none" results)]
    /\ Statistics.total_products_processed s = Z.of_nat (List.length results)
    /\ (count_priority "critical" results + count_priority "high" results
        + count_priority "medium" results + count_priority "low" results
        + count_priority "none" results
        = Statistics.total_products_processed s)%Z.
Proof.
  intros H; unfold MCPServer.get_statistics; cbv zeta.
  rewrite (count_priorities_ladder results H); cbn [bind].
  eexists; split; [reflexivity|].
  cbn [Statistics.priority_breakdown Statistics.total_products_processed].
  rewrite !Z.add_0_l; repeat split.
  exact (count_priority_total results H).
Qed.

(** X2. A result whose priority is no level of the ladder makes the
    statistics fail with [KeyError] on that priority: the breakdown has
    no default counter. The first such result decides. *)
Theorem X2_statistics_unknown_priority
  (good : list ProcessingResult.t) (bad : ProcessingResult.t)
  (rest : list ProcessingResult.t) :
  Forall (fun r => In (ProcessingResult.priority r) MCPServer.priority_order) good ->
  ~ In (ProcessingResult.priority bad) MCPServer.priority_order ->
  MCPServer.get_statistics (good ++ bad :: rest)
  = Raise (KeyError (ProcessingResult.priority bad)).
Proof.
  intros Hgood Hbad; unfold MCPServer.get_statistics; cbv zeta.
  rewrite count_priorities_app, (count_priorities_ladder good Hgood); cbn [bind].
  cbn [MCPServer.count_priorities]; cbv zeta.
  rewrite increment_missing; [reflexivity|].
  intros Hin; apply Hbad; simpl in Hin |- *; tauto.
Qed.

(** X3. Whenever the statistics are returned, the completion rate is
    "100.0%" for a batch that is not empty and "0.0%" for the empty one;
    it says nothing else about the batch. *)
Theorem X3_statistics_completion_rate
  (results : list ProcessingResult.t) (s : Statistics.t) :
  MCPServer.get_statistics results = Ok s ->
  (results = [] -> Statistics.completion_rate s = lit "0.0%")
  /\ (results <> [] -> Statistics.completion_rate s = lit "100.0%").
Proof.
  unfold MCPServer.get_statistics; cbv zeta; intros H.
  apply bind_Ok in H as (counts & _ & H); injection H as <-.
  cbn [Statistics.completion_rate]; split.
  - intros ->; reflexivity.
  - intros Hne.
    destruct results as [|r rest]; [congruence|].
    set (n := Z.of_nat (List.length (r :: rest))).
    assert (Hn : (0 < n)%Z) by (unfold n; simpl List.length; lia).
    destruct (Z.gtb_spec n 0) as [_|Hle]; [|lia].
    unfold MCPServer.format_1f; cbv zeta.
    rewrite (round_half_even_full n Hn); reflexivity.
Qed.

(* ================================================================== *)
(** ** Blank descriptions *)

Lemma lstrip_nil (s : str) : lstrip s = [] -> forallb isspace s = true.
Proof.
  induction s as [|c s IH]; simpl; [reflexivity|].
  destruct (isspace c); [exact IH | discriminate].
Qed.

Lemma lstrip_head (s : str) (c : char) (t : str) :
  lstrip s = c :: t -> isspace c = false.
Proof.
  induction s as [|x s IH]; simpl; [discriminate|].
  destruct (isspace x) eqn:Hx; [exact IH|].
  intros E; injection E as <- _; exact Hx.
Qed.

Lemma strip_nil (s : str) : strip s = [] -> forallb isspace s = true.
Proof.
  unfold strip; intros H.
  apply (f_equal (@rev char)) in H; rewrite rev_involutive in H; simpl in H.
  apply lstrip_nil in H.
  destruct (lstrip s) as [|c t] eqn:E; [exact (lstrip_nil s E)|].
  apply lstrip_head in E.
  rewrite forallb_forall in H.
  rewrite (H c) in E; [discriminate|].
  apply in_rev; rewrite rev_involutive; left; reflexivity.
Qed.

Lemma startswith_head (s : str) (x : char) (n : str) :
  startswith s (x :: n) = true -> exists t, s = x :: t.
Proof.
  destruct s as [|y t]; simpl; [discriminate|].
  destruct (N.eqb_spec x y) as [->|_]; [eauto | discriminate].
Qed.

Lemma contains_In (x : char) (n hay : str) :
  contains (x :: n) hay = true -> In x hay.
Proof.
  induction hay as [|y hay IH]; [discriminate|].
  cbn [contains]; intros H; apply orb_true_iff in H as [H|H].
  - apply startswith_head in H as (t & E); injection E as -> _; left; reflexivity.
  - right; exact (IH H).
Qed.

(** A character that [strip] removes is no letter, in either case. *)
Lemma isspace_not_letter (c : char) :
  isspace c = true -> ~ (97 <= lower_char c <= 122)%N.
Proof.
  unfold isspace, lower_char; intros H.
  repeat rewrite ?orb_true_iff, ?andb_true_iff, ?N.leb_le, ?N.eqb_eq in H.
  destruct ((65 <=? c)%N && (c <=? 90)%N
            || (192 <=? c)%N && (c <=? 222)%N && negb (c =? 215)%N) eqn:E.
  - repeat rewrite ?orb_true_iff, ?andb_true_iff, ?N.leb_le in E; lia.
  - lia.
Qed.

Lemma blank_has_no_letter (d : str) (x : char) :
  forallb isspace d = true -> (97 <= x <= 122)%N -> ~ In x (lower d).
Proof.
  intros Hd Hx Hin; unfold lower in Hin.
  apply in_map_iff in Hin as (c & E & Hc).
  rewrite forallb_forall in Hd.
  apply (isspace_not_letter c (Hd c Hc)); rewrite E; exact Hx.
Qed.

(** No vague term occurs in a description that the check reports missing. *)
Lemma blank_description_no_vague (d : str) :
  negb (truthy d) || eqb (strip d) (lit "") = true ->
  filter (fun term => contains (lower term) (lower d))
    (map lit ["good"; "nice"; "stuff"; "things"; "really"]%string) = [].
Proof.
  intros H.
  assert (Hd : forallb isspace d = true).
  { apply orb_true_iff in H as [H|H].
    - destruct d; [reflexivity | discriminate].
    - apply eqb_eq in H; exact (strip_nil d H). }
  destruct (filter _ _) as [|term rest] eqn:E; [reflexivity|exfalso].
  assert (Hin : In term (term :: rest)) by (left; reflexivity).
  rewrite <- E in Hin; apply filter_In in Hin as (Hterm & Hc).
  simpl in Hterm.
  destruct Hterm as [<-|[<-|[<-|[<-|[<-|[]]]]]];
    match type of Hc with
    | contains ?t _ = true =>
        let v := eval vm_compute in t in change t with v in Hc
    end;
    apply contains_In in Hc;
    apply (blank_has_no_letter d _ Hd) in Hc; try exact Hc; lia.
Qed.

Lemma check_description_length (d : str) :
  (List.length (CheckerMCP._check_description d) <= 2)%nat.
Proof.
  unfold CheckerMCP._check_description; cbv zeta.
  destruct (negb (truthy d) || eqb (strip d) (lit "")) eqn:Hm;
    [rewrite (blank_description_no_vague d Hm)|];
    destruct (len d <? CheckerMCP.MIN_DESCRIPTION_LENGTH)%Z;
    try destruct (filter _ _); cbn; lia.
Qed.

(** X4. The description check emits at most two issues: a description that
    is empty or holds only white space is reported missing and never
    carries [vague_language], since a vague term needs letters. *)
Theorem X4_blank_description_not_vague (d : str) :
  (List.length (CheckerMCP._check_description d) <= 2)%nat
  /\ (In (lit "missing_description")
         (map Issue.type (CheckerMCP._check_description d)) ->
      ~ In (lit "vague_language")
           (map Issue.type (CheckerMCP._check_description d)))
  /\ (strip d = [] ->
      In missing_description_issue (CheckerMCP._check_description d)).
Proof.
  split; [exact (check_description_length d)|].
  unfold CheckerMCP._check_description; cbv zeta.
  destruct (negb (truthy d) || eqb (strip d) (lit "")) eqn:Hm.
  - rewrite (blank_description_no_vague d Hm).
    destruct (len d <? CheckerMCP.MIN_DESCRIPTION_LENGTH)%Z; cbn [app]; split;
      try (intros _ Hin; cbn in Hin; intuition discriminate);
      intros _; cbn [In]; auto.
  - assert (Hs : strip d <> [])
      by (intros Hs; rewrite Hs in Hm;
          change (eqb [] (lit "")) with true in Hm;
          rewrite orb_true_r in Hm; discriminate).
    destruct (len d <? CheckerMCP.MIN_DESCRIPTION_LENGTH)%Z; split;
      try (intros E; contradiction);
      intros Hin; exfalso; destruct (filter _ _); cbn in Hin;
      intuition discriminate.
Qed.

(* ================================================================== *)
(** ** Invariants of an audit and of a processing result *)

Lemma mem_app (x : str) (a b : list str) : mem x (a ++ b) = mem x a || mem x b.
Proof. unfold mem; apply existsb_app. Qed.

Lemma reported_missing_iff (d : str) :
  negb (truthy d) || eqb (strip d) (lit "") = true <-> blank d.
Proof.
  unfold blank; rewrite orb_true_iff, eqb_eq; split; [|auto].
  intros [H|H]; [|exact H].
  destruct d; [reflexivity | discriminate].
Qed.

Lemma check_description_critical (d : str) :
  mem (lit "critical") (map Issue.severity (CheckerMCP._check_description d))
  = negb (truthy d) || eqb (strip d) (lit "").
Proof.
  unfold CheckerMCP._check_description; cbv zeta.
  destruct (len d <? CheckerMCP.MIN_DESCRIPTION_LENGTH)%Z;
  destruct (negb (truthy d) || eqb (strip d) (lit ""));
  destruct (filter _ _); reflexivity.
Qed.

Lemma check_seo_fields_not_critical (p : Product.t) :
  mem (lit "critical") (map Issue.severity (CheckerMCP._check_seo_fields p)) = false.
Proof.
  unfold CheckerMCP._check_seo_fields; cbv zeta.
  repeat match goal with
         | |- context [if ?b then _ else _] => destruct b
         end; reflexivity.
Qed.

Lemma check_tone_not_critical (d : str) :
  mem (lit "critical") (map Issue.severity (CheckerMCP._check_tone d)) = false.
Proof.
  unfold CheckerMCP._check_tone; cbv zeta.
  destruct (negb _); reflexivity.
Qed.

Lemma check_conversion_elements_not_critical (d : str) :
  mem (lit "critical")
    (map Issue.severity (CheckerMCP._check_conversion_elements d)) = false.
Proof.
  unfold CheckerMCP._check_conversion_elements; cbv zeta.
  destruct (negb (existsb _ CheckerMCP.CTA_KEYWORDS));
  destruct (negb (existsb _ CheckerMCP.BENEFIT_KEYWORDS)); reflexivity.
Qed.

Lemma check_seo_fields_length (p : Product.t) :
  (List.length (CheckerMCP._check_seo_fields p) <= 2)%nat.
Proof.
  unfold CheckerMCP._check_seo_fields; cbv zeta.
  repeat match goal with
         | |- context [if ?b then _ else _] => destruct b
         end; cbn [app List.length]; lia.
Qed.

Lemma check_tone_length (d : str) :
  (List.length (CheckerMCP._check_tone d) <= 1)%nat.
Proof.
  unfold CheckerMCP._check_tone; cbv zeta.
  destruct (negb _); cbn [app List.length]; lia.
Qed.

Lemma check_conversion_elements_length (d : str) :
  (List.length (CheckerMCP._check_conversion_elements d) <= 2)%nat.
Proof.
  unfold CheckerMCP._check_conversion_elements; cbv zeta.
  destruct (negb (existsb _ CheckerMCP.CTA_KEYWORDS));
  destruct (negb (existsb _ CheckerMCP.BENEFIT_KEYWORDS));
  cbn [app List.length]; lia.
Qed.

Lemma calculate_severity_levels (issues : list Issue.t) :
  In (CheckerMCP._calculate_severity issues) severity_levels.
Proof.
  unfold CheckerMCP._calculate_severity.
  destruct issues; [simpl; tauto|].
  repeat match goal with
         | |- context [if ?b then _ else _] => destruct b
         end; simpl; tauto.
Qed.

Lemma calculate_severity_none (issues : list Issue.t) :
  CheckerMCP._calculate_severity issues = lit "none" <-> issues = [].
Proof.
  split; [|intros ->; reflexivity].
  destruct issues as [|i rest]; [reflexivity|].
  unfold CheckerMCP._calculate_severity.
  repeat match goal with
         | |- context [if ?b then _ else _] => destruct b
         end; intros H; lit_discr.
Qed.

Lemma calculate_severity_critical (issues : list Issue.t) :
  CheckerMCP._calculate_severity issues = lit "critical"
  <-> mem (lit "critical") (map Issue.severity issues) = true.
Proof.
  unfold CheckerMCP._calculate_severity.
  destruct issues as [|i rest]; [split; intros H; [lit_discr | discriminate]|].
  destruct (mem (lit "critical") _); [tauto|].
  repeat match goal with
         | |- context [if ?b then _ else _] => destruct b
         end; split; intros H; try discriminate; lit_discr.
Qed.

Lemma audit_issues_found_bounds (p : Product.t) (a : AuditResult.t) :
  CheckerMCP.audit_product p = Ok a ->
  AuditResult.issues_found a = Z.of_nat (List.length (AuditResult.issues a))
  /\ (0 <= AuditResult.issues_found a <= 7)%Z.
Proof.
  intros H.
  destruct (audit_product_Ok _ _ H) as (_ & _ & Hissues & Hfound & _).
  cbv zeta in Hissues.
  split; [exact Hfound|].
  rewrite Hfound, Hissues, !length_app.
  pose proof (check_description_length (get (Product.description p) (lit ""))).
  pose proof (check_seo_fields_length p).
  pose proof (check_tone_length (get (Product.description p) (lit ""))).
  pose proof (check_conversion_elements_length (get (Product.description p) (lit ""))).
  lia.
Qed.

Lemma audit_severity_levels (p : Product.t) (a : AuditResult.t) :
  CheckerMCP.audit_product p = Ok a -> In (AuditResult.severity a) severity_levels.
Proof.
  intros H.
  destruct (audit_product_Ok _ _ H) as (_ & _ & _ & _ & ->).
  apply calculate_severity_levels.
Qed.

Lemma audit_severity_none (p : Product.t) (a : AuditResult.t) :
  CheckerMCP.audit_product p = Ok a ->
  (AuditResult.severity a = lit "none" <-> AuditResult.issues_found a = 0%Z).
Proof.
  intros H.
  destruct (audit_product_Ok _ _ H) as (_ & _ & _ & Hfound & Hsev).
  rewrite Hsev, calculate_severity_none, Hfound.
  destruct (AuditResult.issues a); simpl List.length; split;
    intros E; try reflexivity; try discriminate; lia.
Qed.

Lemma audit_severity_critical (p : Product.t) (a : AuditResult.t) :
  CheckerMCP.audit_product p = Ok a ->
  (AuditResult.severity a = lit "critical" <-> blank (description_of p)).
Proof.
  intros H.
  destruct (audit_product_Ok _ _ H) as (_ & _ & Hissues & _ & Hsev).
  cbv zeta in Hissues.
  rewrite Hsev, calculate_severity_critical, Hissues, !map_app, !mem_app.
  rewrite check_description_critical, check_seo_fields_not_critical,
    check_tone_not_critical, check_conversion_elements_not_critical.
  rewrite !orb_false_r; apply reported_missing_iff.
Qed.

(** X5. Every audit the auditor returns counts its issues, between 0 and 7;
    its severity is one of the five levels, is "none" exactly when no issue
    was found, and is "critical" exactly when the description is empty or
    holds only white space. *)
Theorem X5_audit_invariants (p : Product.t) (a : AuditResult.t) :
  CheckerMCP.audit_product p = Ok a ->
  AuditResult.issues_found a = Z.of_nat (List.length (AuditResult.issues a))
  /\ (0 <= AuditResult.issues_found a <= 7)%Z
  /\ In (AuditResult.severity a) severity_levels
  /\ (AuditResult.severity a = lit "none" <-> AuditResult.issues_found a = 0%Z)
  /\ (AuditResult.severity a = lit "critical" <-> blank (description_of p)).
Proof.
  intros H.
  destruct (audit_issues_found_bounds p a H) as (Hfound & Hbounds).
  repeat apply conj; try tauto.
  - exact (audit_severity_levels p a H).
  - apply (audit_severity_none p a H).
  - apply (audit_severity_none p a H).
  - apply (audit_severity_critical p a H).
  - apply (audit_severity_critical p a H).
Qed.

(** The record [process_single_product] returns, by the two ways out. *)
Lemma process_single_product_record (p : Product.t) (r : ProcessingResult.t) :
  MCPServer.process_single_product p = Ok r ->
  exists a pid ptitle,
    CheckerMCP.audit_product p = Ok a
    /\ Product.id p = Some pid /\ Product.title p = Some ptitle
    /\ ((AuditResult.issues_found a > 0)%Z
        /\ (exists o,
              GeneratorMCP.generate_optimized_content p (AuditResult.issues a) = Ok o
              /\ r = ProcessingResult.mk pid ptitle a (Some o) true
                       (MCPServer._determine_priority a))
        \/ (AuditResult.issues_found a <= 0)%Z
           /\ r = ProcessingResult.mk pid ptitle a None false
                    (MCPServer._determine_priority a)).
Proof.
  unfold MCPServer.process_single_product; intros H.
  destruct (CheckerMCP.audit_product p) as [a|e] eqn:Ha; [|discriminate].
  destruct (audit_product_Ok _ _ Ha) as (Hid & Htitle & _).
  cbn [bind] in H; rewrite Hid, Htitle in H; cbn [item bind] in H.
  exists a, (AuditResult.product_id a), (AuditResult.product_title a).
  repeat split; try assumption.
  destruct (Z.gtb_spec (AuditResult.issues_found a) 0) as [Hpos|Hzero].
  - apply bind_Ok in H as (o & Ho & H); injection H as <-.
    left; split; [lia|eauto].
  - injection H as <-; right; split; [lia|reflexivity].
Qed.

Lemma determine_priority_of_audit (p : Product.t) (a : AuditResult.t) :
  CheckerMCP.audit_product p = Ok a ->
  (MCPServer._determine_priority a = lit "none" <-> AuditResult.issues_found a = 0%Z)
  /\ (MCPServer._determine_priority a = lit "critical"
      <-> AuditResult.severity a = lit "critical")
  /\ (Z.of_nat (severity_rank (AuditResult.severity a))
      <= priority_rank (MCPServer._determine_priority a))%Z
  /\ ((AuditResult.issues_found a < 3)%Z ->
      MCPServer._determine_priority a = AuditResult.severity a).
Proof.
  intros H.
  destruct (audit_issues_found_bounds p a H) as (_ & Hbounds).
  pose proof (audit_severity_none p a H) as Hnone.
  pose proof (audit_severity_levels p a H) as Hlev.
  unfold MCPServer._determine_priority.
  destruct (Z.geb_spec (AuditResult.issues_found a) 5) as [H5|H5];
  destruct (Z.geb_spec (AuditResult.issues_found a) 3) as [H3|H3];
  destruct (Z.gtb_spec (AuditResult.issues_found a) 0) as [H0|H0];
  try lia;
  simpl in Hlev; destruct Hlev as [E|[E|[E|[E|[E|[]]]]]];
  try (assert (AuditResult.issues_found a = 0%Z) by (apply Hnone; auto); lia);
  rewrite <- E in *; eval_eqb; cbn [orb];
  repeat split; intros; try reflexivity; try lia; try lit_discr;
  try (vm_compute; discriminate);
  try (exfalso; assert (lit "none" = lit "none") as Hn by reflexivity;
       apply Hnone in Hn; lia);
  exfalso;
  assert (Hz : AuditResult.issues_found a = 0%Z) by lia;
  apply Hnone in Hz; lit_discr.
Qed.

(** The fields of a processing result, one against the other. *)
Lemma processing_result_facts (p : Product.t) (r : ProcessingResult.t) :
  MCPServer.process_single_product p = Ok r ->
  Product.id p = Some (ProcessingResult.product_id r)
  /\ Product.title p = Some (ProcessingResult.product_title r)
  /\ CheckerMCP.audit_product p = Ok (ProcessingResult.audit r)
  /\ ProcessingResult.action_required r = optimized r
  /\ (ProcessingResult.action_required r = true
      <-> (AuditResult.issues_found (ProcessingResult.audit r) > 0)%Z)
  /\ (ProcessingResult.priority r = lit "none"
      <-> ProcessingResult.action_required r = false)
  /\ (ProcessingResult.priority r = lit "critical" <-> blank (description_of p))
  /\ (forall o, ProcessingResult.optimization r = Some o ->
        Optimization.product_id o = ProcessingResult.product_id r
        /\ Optimization.original_description o = description_of p).
Proof.
  intros H.
  destruct (process_single_product_record p r H)
    as (a & pid & ptitle & Ha & Hid & Htitle & Hr).
  destruct (determine_priority_of_audit p a Ha) as (Hnone & Hcrit & _).
  pose proof (audit_severity_critical p a Ha) as Hblank.
  destruct (audit_issues_found_bounds p a Ha) as (_ & Hbounds).
  destruct Hr as [(Hpos & o & Hgen & ->)|(Hzero & ->)];
    unfold optimized;
    cbn [ProcessingResult.product_id ProcessingResult.product_title
         ProcessingResult.audit ProcessingResult.action_required
         ProcessingResult.priority ProcessingResult.optimization].
  - repeat apply conj; try assumption; try reflexivity; try tauto; try lia.
    + intros E; apply Hnone in E; lia.
    + intros o' E; injection E as <-.
      rewrite (generate_optimized_content_Ok p _ pid Hid) in Hgen.
      injection Hgen as <-; split; reflexivity.
  - repeat apply conj; try assumption; try reflexivity; try tauto; try lia;
      try discriminate.
    intros _; apply Hnone; lia.
Qed.

(** X6. A processing result copies the id and the title of its product and
    holds its audit; it requires action exactly when the audit found an
    issue, which is exactly when it carries an optimization and exactly
    when its priority is not "none"; its priority is "critical" exactly
    when the description is empty or holds only white space; and its
    optimization names the same product and keeps the original
    description. *)
Theorem X6_processing_result_invariants (p : Product.t) (r : ProcessingResult.t) :
  MCPServer.process_single_product p = Ok r ->
  Product.id p = Some (ProcessingResult.product_id r)
  /\ Product.title p = Some (ProcessingResult.product_title r)
  /\ CheckerMCP.audit_product p = Ok (ProcessingResult.audit r)
  /\ ProcessingResult.action_required r = optimized r
  /\ (ProcessingResult.action_required r = true
      <-> (AuditResult.issues_found (ProcessingResult.audit r) > 0)%Z)
  /\ (ProcessingResult.priority r = lit "none"
      <-> ProcessingResult.action_required r = false)
  /\ (ProcessingResult.priority r = lit "critical" <-> blank (description_of p))
  /\ (forall o, ProcessingResult.optimization r = Some o ->
        Optimization.product_id o = ProcessingResult.product_id r
        /\ Optimization.original_description o = description_of p).
Proof. exact (processing_result_facts p r). Qed.

Lemma X6_processing_result_witness :
  exists r,
    MCPServer.process_single_product p1 = Ok r
    /\ ProcessingResult.action_required r = optimized r
    /\ (ProcessingResult.priority r = lit "critical" <-> blank (description_of p1)).
Proof.
  destruct (MCPServer.process_single_product p1) as [r|e] eqn:Hr;
    [|vm_compute in Hr; discriminate Hr].
  exists r; split; [reflexivity|].
  destruct (X6_processing_result_invariants p1 r Hr)
    as (_ & _ & _ & Hact & _ & _ & Hcrit & _).
  split; [exact Hact | exact Hcrit].
Defined.

(** X7. The priority of a processing result is never below the severity of
    its audit, and equals it when the audit found fewer than three issues:
    the count thresholds only raise a priority. *)
Theorem X7_priority_not_below_severity (p : Product.t) (r : ProcessingResult.t) :
  MCPServer.process_single_product p = Ok r ->
  (Z.of_nat (severity_rank (AuditResult.severity (ProcessingResult.audit r)))
   <= priority_rank (ProcessingResult.priority r))%Z
  /\ ((AuditResult.issues_found (ProcessingResult.audit r) < 3)%Z ->
      ProcessingResult.priority r = AuditResult.severity (ProcessingResult.audit r)).
Proof.
  intros H.
  destruct (process_single_product_record p r H)
    as (a & pid & ptitle & Ha & _ & _ & Hr).
  destruct (determine_priority_of_audit p a Ha) as (_ & _ & Hle & Heq).
  destruct Hr as [(_ & o & _ & ->)|(_ & ->)];
    cbn [ProcessingResult.audit ProcessingResult.priority]; auto.
Qed.

Lemma X7_priority_witness :
  exists r,
    MCPServer.process_single_product p_clean = Ok r
    /\ (Z.of_nat (severity_rank (AuditResult.severity (ProcessingResult.audit r)))
        <= priority_rank (ProcessingResult.priority r))%Z
    /\ ((AuditResult.issues_found (ProcessingResult.audit r) < 3)%Z ->
        ProcessingResult.priority r
        = AuditResult.severity (ProcessingResult.audit r)).
Proof.
  destruct (MCPServer.process_single_product p_clean) as [r|e] eqn:Hr;
    [|vm_compute in Hr; discriminate Hr].
  exists r; split; [reflexivity|].
  exact (X7_priority_not_below_severity p_clean r Hr).
Defined.

(* ================================================================== *)
(** ** Missing keys and the batch loop *)

(** X8. A product without id makes the audit, the synthesizer and the
    processing fail with [KeyError] on "id", whatever else it lacks; one
    with an id and without title makes the audit and the processing fail
    with [KeyError] on "title"; these are the only failures, and no other
    key is required. *)
Theorem X8_missing_keys (p : Product.t) :
  (Product.id p = None ->
   CheckerMCP.audit_product p = Raise (KeyError (lit "id"))
   /\ MCPServer.process_single_product p = Raise (KeyError (lit "id"))
   /\ forall issues,
        GeneratorMCP.generate_optimized_content p issues
        = Raise (KeyError (lit "id")))
  /\ (Product.id p <> None -> Product.title p = None ->
      CheckerMCP.audit_product p = Raise (KeyError (lit "title"))
      /\ MCPServer.process_single_product p = Raise (KeyError (lit "title")))
  /\ (Product.id p <> None -> Product.title p <> None ->
      exists r, MCPServer.process_single_product p = Ok r)
  /\ (Product.id p <> None ->
      forall issues, exists o,
        GeneratorMCP.generate_optimized_content p issues = Ok o).
Proof.
  unfold MCPServer.process_single_product, CheckerMCP.audit_product.
  cbv zeta.
  destruct (Product.id p) as [pid|] eqn:Hid;
  destruct (Product.title p) as [ptitle|] eqn:Htitle;
  cbn [item bind]; repeat split; intros; try congruence;
  try (unfold GeneratorMCP.generate_optimized_content; rewrite Hid; reflexivity).
  - destruct (_ >? 0)%Z; [|eauto].
    rewrite (generate_optimized_content_Ok p _ pid Hid); cbn [bind]; eauto.
  - rewrite (generate_optimized_content_Ok p _ pid Hid); eauto.
  - rewrite (generate_optimized_content_Ok p _ pid Hid); eauto.
Qed.

Lemma mapM_Forall2 {A B : Type} (f : A -> result B) (xs : list A) (ys : list B) :
  mapM f xs = Ok ys <-> Forall2 (fun x y => f x = Ok y) xs ys.
Proof.
  revert ys; induction xs as [|x xs IH]; intros ys; simpl.
  - split; intros H; [injection H as <-; constructor | inversion H; reflexivity].
  - split; intros H.
    + apply bind_Ok in H as (y & Hy & H).
      apply bind_Ok in H as (ys' & Hys & H).
      injection H as <-; constructor; [exact Hy | apply IH; exact Hys].
    + inversion H as [|x' y xs' ys' Hy Hys]; subst.
      rewrite Hy; apply IH in Hys; rewrite Hys; reflexivity.
Qed.

Lemma mapM_first_failure {A B : Type} (f : A -> result B)
  (good : list A) (bad : A) (rest : list A) (e : exn) :
  Forall (fun x => exists y, f x = Ok y) good -> f bad = Raise e ->
  mapM f (good ++ bad :: rest) = Raise e.
Proof.
  intros Hgood Hbad; induction Hgood as [|x good (y & Hy) _ IH]; simpl.
  - rewrite Hbad; reflexivity.
  - rewrite Hy, IH; reflexivity.
Qed.

(** X9. The batch run returns a list exactly when every product is
    processed, and then the results are those of the products, one each, in
    the order of the batch; otherwise it fails as the first product that
    fails does, and returns nothing of the others. *)
Theorem X9_process_products_pointwise :
  (forall products results,
     MCPServer.process_products products = Ok results
     <-> Forall2 (fun p r => MCPServer.process_single_product p = Ok r)
           products results)
  /\ (forall good bad rest e,
        Forall (fun p => Product.id p <> None /\ Product.title p <> None) good ->
        MCPServer.process_single_product bad = Raise e ->
        MCPServer.process_products (good ++ bad :: rest) = Raise e).
Proof.
  split.
  - intros products results; apply mapM_Forall2.
  - intros good bad rest e Hgood Hbad.
    apply mapM_first_failure; [|exact Hbad].
    eapply Forall_impl; [|exact Hgood].
    intros p (Hid & Htitle).
    destruct (Product.id p) as [pid|] eqn:Eid; [|congruence].
    destruct (Product.title p) as [ptitle|] eqn:Etitle; [|congruence].
    exact (process_single_product_total p pid ptitle Eid Etitle).
Qed.

(** A product without title, after one that is processed. *)
Lemma X9_process_products_witness :
  MCPServer.process_products
    [p_clean; Product.mk (Some (lit "p3")) None None None None None None; p1]
  = Raise (KeyError (lit "title")).
Proof.
  apply (proj2 X9_process_products_pointwise [p_clean]
           (Product.mk (Some (lit "p3")) None None None None None None) [p1]).
  - repeat constructor; discriminate.
  - reflexivity.
Defined.

(* ================================================================== *)
(** ** Thresholds of the priority filter *)

(** The filtered run, for a threshold of the ladder. *)
Lemma filter_run_by_rank (products : list Product.t) (min_priority : str) :
  In min_priority MCPServer.priority_order ->
  MCPServer.process_batch_with_filters products min_priority
  = (all_results <- MCPServer.process_products products ;;
     Ok (filter
           (fun r => (priority_rank (ProcessingResult.priority r)
                      >=? priority_rank min_priority)%Z)
           all_results)).
Proof.
  intros Hmp.
  unfold MCPServer.process_batch_with_filters.
  rewrite (index_priority_rank _ Hmp); cbn [bind].
  destruct (MCPServer.process_products products) as [all|e] eqn:Hall;
    cbn [bind]; [|reflexivity].
  apply filterM_pure.
  eapply Forall_impl; [|exact (process_products_priorities _ _ Hall)].
  intros r Hr; cbv beta in Hr.
  rewrite (index_priority_rank _ Hr); reflexivity.
Qed.

Lemma filter_all {A : Type} (f : A -> bool) (xs : list A) :
  Forall (fun x => f x = true) xs -> filter f xs = xs.
Proof.
  induction 1 as [|x xs Hx _ IH]; simpl; [reflexivity|].
  rewrite Hx, IH; reflexivity.
Qed.

Lemma process_products_processed (products : list Product.t)
  (results : list ProcessingResult.t) :
  MCPServer.process_products products = Ok results ->
  Forall (fun r => exists p, MCPServer.process_single_product p = Ok r) results.
Proof.
  apply mapM_Forall; intros p r H; exists p; exact H.
Qed.

(** X10. With the threshold "none" the filtered run is the unfiltered run;
    with the threshold "low", the default, it drops exactly the results
    that require no action. *)
Theorem X10_filter_none_and_low (products : list Product.t) :
  MCPServer.process_batch_with_filters products (lit "none")
  = MCPServer.process_products products
  /\ MCPServer.process_batch_with_filters products (lit "low")
     = (all_results <- MCPServer.process_products products ;;
        Ok (filter ProcessingResult.action_required all_results)).
Proof.
  rewrite !filter_run_by_rank by (simpl; tauto).
  destruct (MCPServer.process_products products) as [all|e] eqn:Hall;
    cbn [bind]; [|split; reflexivity].
  pose proof (process_products_priorities _ _ Hall) as Hord.
  pose proof (process_products_processed _ _ Hall) as Hproc.
  split; f_equal.
  - apply filter_all; eapply Forall_impl; [|exact Hord].
    intros r Hr; simpl in Hr.
    destruct Hr as [<-|[<-|[<-|[<-|[<-|[]]]]]]; reflexivity.
  - apply filter_ext_in; intros r Hr.
    rewrite Forall_forall in Hord, Hproc.
    destruct (Hproc r Hr) as (p & Hp).
    destruct (processing_result_facts p r Hp) as (_ & _ & _ & _ & _ & Hnone & _).
    specialize (Hord r Hr); simpl in Hord.
    destruct (ProcessingResult.action_required r).
    + destruct Hord as [E|[E|[E|[E|[E|[]]]]]]; rewrite <- E; try reflexivity.
      symmetry in E; apply Hnone in E; discriminate E.
    + rewrite (proj2 Hnone eq_refl); reflexivity.
Qed.

(* ================================================================== *)
(** ** The shape of a payload *)

(** X11. Whatever the result, a payload that is returned names the product
    of the result and holds between one and three updates, under distinct
    keys among description, seo_title and seo_description, none of them
    with an empty text. *)
Theorem X11_payload_shape (r : ProcessingResult.t) (payload : Payload.t) :
  MCPServer.export_for_shopify r = Some payload ->
  Payload.product_id payload = ProcessingResult.product_id r
  /\ (1 <= List.length (Payload.updates payload) <= 3)%nat
  /\ NoDup (map fst (Payload.updates payload))
  /\ incl (map fst (Payload.updates payload)) payload_keys
  /\ Forall (fun kv => snd kv <> []) (Payload.updates payload).
Proof.
  unfold MCPServer.export_for_shopify, MCPServer.put_if_truthy.
  destruct (ProcessingResult.optimization r) as [o|]; [|discriminate].
  cbv zeta.
  destruct (Optimization.optimized_description o) as [[|c1 v1]|];
  destruct (Optimization.optimized_seo_title o) as [[|c2 v2]|];
  destruct (Optimization.optimized_seo_description o) as [[|c3 v3]|];
  cbn [truthy app]; intros H; try discriminate H; injection H as <-;
  cbn [Payload.product_id Payload.updates List.length map fst snd];
  (split; [reflexivity|]); (split; [lia|]);
  (split; [repeat (constructor;
             [cbn [In]; intros H; repeat (destruct H as [H|H]; [lit_discr|]); exact H|]);
           constructor|]);
  (split; [apply incl_forallb_mem; reflexivity|]);
  repeat constructor; discriminate.
Qed.

(* ================================================================== *)
(** ** The synthesizer on any issue list *)

Lemma description_trigger_iff (issues : list Issue.t) :
  description_trigger issues = true
  <-> exists i, In i issues /\ In (Issue.type i) rewrite_types.
Proof.
  unfold description_trigger, GeneratorMCP._needs_description_rewrite; cbv zeta.
  fold rewrite_types; rewrite existsb_exists; split.
  - intros (t & Ht & Hm); apply mem_In, in_map_iff in Hm as (i & <- & Hi); eauto.
  - intros (i & Hi & Ht); exists (Issue.type i); split; [exact Ht|].
    apply mem_In, in_map; exact Hi.
Qed.

Lemma seo_title_trigger_iff (issues : list Issue.t) :
  seo_title_trigger issues = true
  <-> exists i, In i issues /\ Issue.type i = lit "seo_title".
Proof.
  unfold seo_title_trigger; rewrite mem_In, in_map_iff; split;
    intros (i & H1 & H2); exists i; tauto.
Qed.

Lemma seo_description_trigger_iff (issues : list Issue.t) :
  seo_description_trigger issues = true
  <-> exists i, In i issues
                /\ startswith (Issue.type i) (lit "seo_description") = true.
Proof.
  unfold seo_description_trigger; rewrite existsb_exists; split.
  - intros (t & Ht & Hs); apply in_map_iff in Ht as (i & <- & Hi); eauto.
  - intros (i & Hi & Hs); exists (Issue.type i); split; [apply in_map; exact Hi|exact Hs].
Qed.

Lemma option_if_set {A : Type} (b : bool) (v : A) :
  (if b then Some v else None) <> None <-> b = true.
Proof. destruct b; split; congruence. Qed.

(** X12. On any issue list, the synthesizer names the product, keeps its
    description as the original, sets the description exactly when some
    issue has one of the six rewrite types, the SEO title exactly when some
    issue has type [seo_title], the SEO description exactly when some issue
    type starts with [seo_description]; it records one improvement per
    field it sets, and sets nothing for an empty list. *)
Theorem X12_optimization_shape
  (p : Product.t) (issues : list Issue.t) (o : Optimization.t) :
  GeneratorMCP.generate_optimized_content p issues = Ok o ->
  Product.id p = Some (Optimization.product_id o)
  /\ Optimization.original_description o = description_of p
  /\ (Optimization.optimized_description o <> None
      <-> exists i, In i issues /\ In (Issue.type i) rewrite_types)
  /\ (Optimization.optimized_seo_title o <> None
      <-> exists i, In i issues /\ Issue.type i = lit "seo_title")
  /\ (Optimization.optimized_seo_description o <> None
      <-> exists i, In i issues
                    /\ startswith (Issue.type i) (lit "seo_description") = true)
  /\ List.length (Optimization.improvements_made o)
     = List.length (regenerated_fields o)
  /\ (issues = [] ->
      regenerated_fields o = [] /\ Optimization.improvements_made o = []).
Proof.
  intros H.
  destruct (Product.id p) as [pid|] eqn:Hid;
    [|unfold GeneratorMCP.generate_optimized_content in H; rewrite Hid in H;
      discriminate].
  rewrite (generate_optimized_content_Ok p issues pid Hid) in H; injection H as <-.
  unfold regenerated_fields, description_of.
  cbn [Optimization.product_id Optimization.original_description
       Optimization.optimized_description Optimization.optimized_seo_title
       Optimization.optimized_seo_description Optimization.improvements_made].
  rewrite !option_if_set, <- description_trigger_iff, <- seo_title_trigger_iff,
    <- seo_description_trigger_iff.
  repeat apply conj; try reflexivity; try tauto.
  - destruct (description_trigger issues), (seo_title_trigger issues),
      (seo_description_trigger issues); reflexivity.
  - intros ->; split; reflexivity.
Qed.

Lemma bool_eq_iff (a b : bool) : (a = true <-> b = true) -> a = b.
Proof. destruct a, b; intros [H1 H2]; auto; discriminate (H1 eq_refl) || discriminate (H2 eq_refl). Qed.

Lemma some_issue_type (P : str -> Prop) (issues : list Issue.t) :
  (exists i, In i issues /\ P (Issue.type i))
  <-> (exists t, In t (map Issue.type issues) /\ P t).
Proof.
  split.
  - intros (i & Hi & HP); exists (Issue.type i); split; [apply in_map; exact Hi|exact HP].
  - intros (t & Ht & HP); apply in_map_iff in Ht as (i & <- & Hi); eauto.
Qed.

(** X13. The synthesizer reads the issue list only through the set of its
    types: two lists with the same types, in any order and any number,
    whatever their severities and messages, give the same optimization (or
    the same failure). *)
Theorem X13_optimization_depends_on_types
  (p : Product.t) (issues1 issues2 : list Issue.t) :
  (forall t, In t (map Issue.type issues1) <-> In t (map Issue.type issues2)) ->
  GeneratorMCP.generate_optimized_content p issues1
  = GeneratorMCP.generate_optimized_content p issues2.
Proof.
  intros Hsame.
  assert (Hext : forall P : str -> Prop,
             (exists i, In i issues1 /\ P (Issue.type i))
             <-> (exists i, In i issues2 /\ P (Issue.type i))).
  { intros P; rewrite !some_issue_type; split; intros (t & Ht & HP);
      exists t; split; try exact HP; apply Hsame; exact Ht. }
  destruct (Product.id p) as [pid|] eqn:Hid;
    [|unfold GeneratorMCP.generate_optimized_content; rewrite Hid; reflexivity].
  rewrite !(generate_optimized_content_Ok p _ pid Hid).
  replace (description_trigger issues2) with (description_trigger issues1)
    by (apply bool_eq_iff; rewrite !description_trigger_iff;
        exact (Hext (fun t => In t rewrite_types))).
  replace (seo_title_trigger issues2) with (seo_title_trigger issues1)
    by (apply bool_eq_iff; rewrite !seo_title_trigger_iff;
        exact (Hext (fun t => t = lit "seo_title"))).
  replace (seo_description_trigger issues2) with (seo_description_trigger issues1)
    by (apply bool_eq_iff; rewrite !seo_description_trigger_iff;
        exact (Hext (fun t => startswith t (lit "seo_description") = true))).
  reflexivity.
Qed.

(* ================================================================== *)
(** ** Priority against the number of issues *)

(** X14. For a fixed severity, more issues never lower the priority. *)
Theorem X14_priority_monotone_in_count (a1 a2 : AuditResult.t) :
  AuditResult.severity a1 = AuditResult.severity a2 ->
  (AuditResult.issues_found a1 <= AuditResult.issues_found a2)%Z ->
  (priority_rank (MCPServer._determine_priority a1)
   <= priority_rank (MCPServer._determine_priority a2))%Z.
Proof.
  intros Hsev Hle; unfold MCPServer._determine_priority; rewrite Hsev.
  destruct (eqb (AuditResult.severity a2) (lit "critical"));
  destruct (eqb (AuditResult.severity a2) (lit "high"));
  destruct (eqb (AuditResult.severity a2) (lit "medium"));
  destruct (Z.geb_spec (AuditResult.issues_found a1) 5);
  destruct (Z.geb_spec (AuditResult.issues_found a2) 5);
  destruct (Z.geb_spec (AuditResult.issues_found a1) 3);
  destruct (Z.geb_spec (AuditResult.issues_found a2) 3);
  destruct (Z.gtb_spec (AuditResult.issues_found a1) 0);
  destruct (Z.gtb_spec (AuditResult.issues_found a2) 0);
  cbn [orb]; try lia; vm_compute; discriminate.
Qed.

(* ================================================================== *)
(** ** Statistics of a processed batch *)

Lemma sum_ones {A : Type} (xs : list A) :
  MCPServer.sum (map (fun _ => 1%Z) xs) = Z.of_nat (List.length xs).
Proof.
  induction xs as [|x xs IH]; [reflexivity|].
  cbn [map]; rewrite sum_cons, IH; simpl List.length; lia.
Qed.

Lemma processed_counts (results : list ProcessingResult.t) :
  Forall (fun r => exists p, MCPServer.process_single_product p = Ok r) results ->
  filter (fun r => (AuditResult.issues_found (ProcessingResult.audit r) >? 0)%Z)
    results
  = filter optimized results
  /\ (Z.of_nat (List.length (filter optimized results))
      <= MCPServer.sum
           (map (fun r => AuditResult.issues_found (ProcessingResult.audit r))
              results)
      <= 7 * Z.of_nat (List.length results))%Z
  /\ (count_priority "none" results
      = Z.of_nat (List.length results)
        - Z.of_nat (List.length (filter optimized results)))%Z.
Proof.
  induction 1 as [|r rest (p & Hp) _ (IH1 & IH2 & IH3)].
  - repeat split; unfold MCPServer.sum; simpl; lia.
  - destruct (processing_result_facts p r Hp)
      as (_ & _ & Ha & Hact & Hpos & Hnone & _).
    destruct (audit_issues_found_bounds p _ Ha) as (_ & Hb).
    rewrite count_priority_cons; cbn [filter map]; rewrite sum_cons, IH1.
    rewrite <- Hact.
    destruct (ProcessingResult.action_required r) eqn:Hreq.
    + pose proof (proj1 Hpos eq_refl) as Hgt.
      destruct (Z.gtb_spec (AuditResult.issues_found (ProcessingResult.audit r)) 0);
        [|lia].
      destruct (eqb_spec (ProcessingResult.priority r) (lit "none")) as [E|_];
        [apply Hnone in E; discriminate E|].
      repeat split; simpl List.length; lia.
    + destruct (Z.gtb_spec (AuditResult.issues_found (ProcessingResult.audit r)) 0)
        as [Hgt|Hle]; [apply Z.lt_gt, Hpos in Hgt; discriminate Hgt|].
      rewrite (proj2 Hnone eq_refl); eval_eqb.
      repeat split; simpl List.length; lia.
Qed.

(** X15. The statistics of a processed batch are always returned; they
    count one product per result, as optimized exactly the results that
    carry an optimization, as priority "none" exactly the others, and a
    total of issues between the number of optimized products and seven
    times the size of the batch. *)
Theorem X15_statistics_of_batch
  (products : list Product.t) (results : list ProcessingResult.t) :
  MCPServer.process_products products = Ok results ->
  exists s,
    MCPServer.get_statistics results = Ok s
    /\ Statistics.total_products_processed s = Z.of_nat (List.length products)
    /\ Statistics.products_optimized s
       = Z.of_nat (List.length (filter optimized results))
    /\ Statistics.products_with_issues s = Statistics.products_optimized s
    /\ (Statistics.products_optimized s <= Statistics.total_issues_found s
        <= 7 * Statistics.total_products_processed s)%Z
    /\ In (lit "none",
           (Statistics.total_products_processed s
            - Statistics.products_optimized s)%Z)
          (Statistics.priority_breakdown s).
Proof.
  intros H.
  pose proof (process_products_priorities _ _ H) as Hord.
  destruct (processed_counts results (process_products_processed _ _ H))
    as (Hfilter & Hsum & Hnone).
  unfold MCPServer.get_statistics; cbv zeta.
  rewrite (count_priorities_ladder results Hord); cbn [bind].
  eexists; split; [reflexivity|].
  cbn [Statistics.total_products_processed Statistics.products_optimized
       Statistics.products_with_issues Statistics.total_issues_found
       Statistics.priority_breakdown].
  rewrite Hfilter, sum_ones, <- Hnone, !Z.add_0_l.
  repeat split; try lia.
  - f_equal; exact (mapM_length _ _ _ H).
  - cbn [In]; tauto.
Qed.

(* ================================================================== *)
(** ** The generated texts against the auditor *)

(** The lengths of literals are replaced by their values. *)
Ltac eval_lengths :=
  unfold GeneratorMCP.nl, GeneratorMCP.bullet;
  repeat match goal with
         | |- context [List.length (lit ?s)] =>
             let v := eval vm_compute in (List.length (lit s)) in
             change (List.length (lit s)) with v
         | H : context [List.length (lit ?s)] |- _ =>
             let v := eval vm_compute in (List.length (lit s)) in
             change (List.length (lit s)) with v in H
         end;
  cbn [List.length] in *.



Lemma startswith_app (a b : str) : startswith (a ++ b) a = true.
Proof.
  induction a as [|x a IH]; [destruct b; reflexivity|].
  cbn [app startswith]; rewrite N.eqb_refl; exact IH.
Qed.

(** The SEO-title test of the auditor, on the title it is given. *)
Lemma seo_title_reported (q : Product.t) :
  In (lit "seo_title") (map Issue.type (CheckerMCP._check_seo_fields q))
  <-> (len (get (Product.seo_title q) (lit "")) < 30)%Z.
Proof.
  unfold CheckerMCP._check_seo_fields; cbv zeta.
  set (st := get (Product.seo_title q) (lit "")); clearbody st.
  unfold CheckerMCP.MIN_SEO_TITLE_LENGTH.
  destruct st as [|c st]; cbn [truthy negb orb].
  - split; [intros _; unfold len; simpl; lia|intros _].
    repeat match goal with
           | |- context [if ?b then _ else _] => destruct b
           end; cbn; auto.
  - destruct (Z.ltb_spec (len (c :: st)) 30) as [Hlt|Hge].
    + split; [intros _; exact Hlt|intros _].
      repeat match goal with
             | |- context [if ?b then _ else _] => destruct b
             end; cbn; auto.
    + split; [|lia].
      repeat match goal with
             | |- context [if ?b then _ else _] => destruct b
             end; cbn; intros H;
        repeat (destruct H as [H|H]; [discriminate H|]); destruct H.
Qed.

(** X17. The synthesized SEO title starts with the whole title and is 18
    to 36 characters longer, or at most 60 characters long when the vendor
    is kept. A product that carries it is not reported [seo_title] as
    soon as its title has 12 characters; with a shorter title, no vendor
    and the default benefit, it is reported again. *)
Theorem X17_seo_title_length (p : Product.t) :
  startswith (GeneratorMCP._generate_seo_title p) (title_of p) = true
  /\ (len (title_of p) + 18 <= len (GeneratorMCP._generate_seo_title p)
      <= Z.max 60 (len (title_of p) + 36))%Z
  /\ (forall q,
        Product.seo_title q = Some (GeneratorMCP._generate_seo_title p) ->
        (12 <= len (title_of p))%Z ->
        ~ In (lit "seo_title") (map Issue.type (CheckerMCP._check_seo_fields q)))
  /\ (forall q,
        Product.seo_title q = Some (GeneratorMCP._generate_seo_title p) ->
        vendor_of p = [] ->
        mentions "cream" (title_of p) = false ->
        mentions "serum" (title_of p) = false ->
        (len (title_of p) < 12)%Z ->
        In (lit "seo_title") (map Issue.type (CheckerMCP._check_seo_fields q))).
Proof.
  assert (Hshape :
    startswith (GeneratorMCP._generate_seo_title p) (title_of p) = true
    /\ (len (title_of p) + 18 <= len (GeneratorMCP._generate_seo_title p)
        <= Z.max 60 (len (title_of p) + 36))%Z
    /\ (vendor_of p = [] ->
        mentions "cream" (title_of p) = false ->
        mentions "serum" (title_of p) = false ->
        len (GeneratorMCP._generate_seo_title p) = (len (title_of p) + 18)%Z)).
  { unfold GeneratorMCP._generate_seo_title, title_of, vendor_of, mentions.
    cbv zeta.
    set (title := get (Product.title p) (lit "")); clearbody title.
    set (vendor := get (Product.vendor p) (lit "")); clearbody vendor.
    destruct (contains (lit "cream") (lower title));
      [|destruct (contains (lit "serum") (lower title))];
      (destruct vendor as [|c vendor]; cbn [truthy];
       match goal with
       | |- context [(len ?x >? 60)%Z] =>
           destruct (Z.gtb_spec (len x) 60) as [Hgt|Hle]
       end;
       (split; [rewrite <- ?app_assoc; apply startswith_app|]);
       (split; [|intros; try discriminate; unfold len; rewrite ?length_app;
                  eval_lengths; lia]);
       unfold len in *; rewrite ?length_app in *; eval_lengths; lia). }
  destruct Hshape as (Hstart & Hlen & Hshort).
  repeat split; try tauto; try lia.
  - intros q Hq Hlong Hin; apply seo_title_reported in Hin.
    rewrite Hq in Hin; cbn [get] in Hin; lia.
  - intros q Hq Hv Hc Hs Hlt; apply seo_title_reported.
    rewrite Hq; cbn [get]; rewrite (Hshort Hv Hc Hs); lia.
Qed.









(* ================================================================== *)
(** ** Concrete runs of the further properties *)

Lemma X1_statistics_breakdown_witness :
  exists results s,
    MCPServer.process_products batch = Ok results
    /\ MCPServer.get_statistics results = Ok s
    /\ Statistics.priority_breakdown s
       = [(lit "critical", count_priority "critical" results);
          (lit "high", count_priority "high" results);
          (lit "medium", count_priority "medium" results);
          (lit "low", count_priority "low" results);
          (lit "none", count_priority "none" results)].
Proof.
  destruct (MCPServer.process_products batch) as [results|e] eqn:H;
    [|vm_compute in H; discriminate H].
  destruct (X1_statistics_breakdown results (process_products_priorities _ _ H))
    as (s & Hs & Hb & _).
  exists results, s; auto.
Defined.

Lemma X2_statistics_unknown_priority_witness :
  MCPServer.get_statistics ([] ++ r_urgent :: [])
  = Raise (KeyError (ProcessingResult.priority r_urgent)).
Proof.
  apply (X2_statistics_unknown_priority [] r_urgent []).
  - constructor.
  - intros H; simpl in H.
    repeat (destruct H as [H|H]; [vm_compute in H; discriminate H|]).
    exact H.
Defined.

Lemma X3_statistics_completion_rate_witness :
  exists results s,
    MCPServer.process_products batch = Ok results
    /\ MCPServer.get_statistics results = Ok s
    /\ Statistics.completion_rate s = lit "100.0%".
Proof.
  destruct (MCPServer.process_products batch) as [results|e] eqn:H;
    [|vm_compute in H; discriminate H].
  destruct (MCPServer.get_statistics results) as [s|e] eqn:Hs;
    [|vm_compute in H; injection H as <-; vm_compute in Hs; discriminate Hs].
  exists results, s; split; [reflexivity|]; split; [exact Hs|].
  apply (X3_statistics_completion_rate results s Hs).
  intros E; rewrite E in H; vm_compute in H; discriminate H.
Defined.

Lemma X5_audit_invariants_witness :
  exists a,
    CheckerMCP.audit_product p1 = Ok a
    /\ (0 <= AuditResult.issues_found a <= 7)%Z
    /\ (AuditResult.severity a = lit "critical" <-> blank (description_of p1)).
Proof.
  destruct (CheckerMCP.audit_product p1) as [a|e] eqn:H;
    [|vm_compute in H; discriminate H].
  destruct (X5_audit_invariants p1 a H) as (_ & Hb & _ & _ & Hc).
  exists a; auto.
Defined.

Lemma X11_payload_shape_witness :
  exists r payload,
    MCPServer.process_single_product p1 = Ok r
    /\ MCPServer.export_for_shopify r = Some payload
    /\ NoDup (map fst (Payload.updates payload))
    /\ Forall (fun kv => snd kv <> []) (Payload.updates payload).
Proof.
  destruct (MCPServer.process_single_product p1) as [r|e] eqn:Hr;
    [|vm_compute in Hr; discriminate Hr].
  destruct (MCPServer.export_for_shopify r) as [payload|] eqn:Hp;
    [|vm_compute in Hr; injection Hr as <-; vm_compute in Hp; discriminate Hp].
  destruct (X11_payload_shape r payload Hp) as (_ & _ & Hnd & _ & Hne).
  exists r, payload; auto.
Defined.

Lemma X12_optimization_shape_witness :
  exists o,
    GeneratorMCP.generate_optimized_content p1 [issue_a; issue_b] = Ok o
    /\ List.length (Optimization.improvements_made o)
       = List.length (regenerated_fields o)
    /\ Optimization.original_description o = description_of p1.
Proof.
  destruct (GeneratorMCP.generate_optimized_content p1 [issue_a; issue_b])
    as [o|e] eqn:H; [|vm_compute in H; discriminate H].
  destruct (X12_optimization_shape p1 [issue_a; issue_b] o H)
    as (_ & Ho & _ & _ & _ & Hl & _).
  exists o; auto.
Defined.

Lemma X13_optimization_depends_on_types_witness :
  GeneratorMCP.generate_optimized_content p1 [issue_a; issue_b]
  = GeneratorMCP.generate_optimized_content p1 [issue_b; issue_a; issue_b].
Proof.
  apply (X13_optimization_depends_on_types p1 [issue_a; issue_b]
           [issue_b; issue_a; issue_b]).
  intros t; simpl; tauto.
Defined.

Lemma X14_priority_monotone_witness :
  (priority_rank
     (MCPServer._determine_priority
        (AuditResult.mk (lit "p") (lit "t") 2
           (repeat issue_b 2) (lit "medium")))
   <= priority_rank
        (MCPServer._determine_priority
           (AuditResult.mk (lit "p") (lit "t") 5
              (repeat issue_b 5) (lit "medium"))))%Z.
Proof.
  apply (X14_priority_monotone_in_count
           (AuditResult.mk (lit "p") (lit "t") 2 (repeat issue_b 2) (lit "medium"))
           (AuditResult.mk (lit "p") (lit "t") 5 (repeat issue_b 5) (lit "medium"))).
  - reflexivity.
  - simpl; lia.
Defined.

Lemma X15_statistics_of_batch_witness :
  exists results s,
    MCPServer.process_products batch = Ok results
    /\ MCPServer.get_statistics results = Ok s
    /\ Statistics.total_products_processed s = 2%Z
    /\ (Statistics.products_optimized s <= Statistics.total_issues_found s)%Z.
Proof.
  destruct (MCPServer.process_products batch) as [results|e] eqn:H;
    [|vm_compute in H; discriminate H].
  destruct (X15_statistics_of_batch batch results H)
    as (s & Hs & Ht & _ & _ & (Hle & _) & _).
  exists results, s; auto.
Defined.
